(** * ODrive ros2_control hardware interface

    A shallow embedding of
    [src/odrive_ros2_control/src/odrive_hardware_interface.cpp]:
    the per-axis setpoint selection of [write], the estimate conversion of
    [read], the control-mode switch of [set_axis_command_mode], and the
    routing and decoding of inbound CAN frames ([on_can_msg]).

    C++ [double] is IEEE 754 binary64, which is exactly what Rocq's primitive
    [float] is, so every arithmetic expression of the source is written with
    the same operations in the same order, and NaN behaves as it does in the
    program.  Unsigned integers ([can_id], [node_id_], [can_dlc]) are [Z]. *)

From Stdlib Require Import ZArith List Bool Lia Floats String.
From Stdlib.Strings Require Import Byte.
Import ListNotations.

(** ** Numeric constants and C++ conversions *)

(** [M_PI] of <cmath>: the binary64 nearest to pi. *)
Definition M_PI : float := 0x1.921fb54442d18p+1%float.

(** The literal [2] in [2 * M_PI] is an [int] promoted to [double]. *)
Definition two : float := 2%float.

(** The literal [0.0f], converted to [double] where it is used. *)
Definition zero_f : float := 0%float.

(** [NAN] of <cmath>. *)
Definition NAN : float := nan.

(** Conversion of a [double] to [float], as an assignment to a [float]
    member does it: the nearest binary32 value, ties to even, an infinity
    beyond the binary32 range; zeros, infinities and NaN are kept.  The
    result is held as the [double] it widens to. *)
Definition double_to_float (x : float) : float :=
  SF2Prim
    match Prim2SF x with
    | S754_finite s m e => binary_round 24 128 s m e
    | other => other
    end.

Arguments double_to_float : simpl never.

(** Unary minus on a [bool]: the operand is promoted to [int]. *)
Definition neg_bool (b : bool) : Z := (- Z.b2z b)%Z.

(** Contextual conversion of an [int] to [bool] (condition of [?:]). *)
Definition int_to_bool (z : Z) : bool := negb (z =? 0)%Z.

(** ** Enumerations of odrive_enums.h that the interface names *)

Inductive AxisState : Type :=
| AXIS_STATE_IDLE
| AXIS_STATE_CLOSED_LOOP_CONTROL.

Inductive ControlMode : Type :=
| CONTROL_MODE_TORQUE_CONTROL
| CONTROL_MODE_VELOCITY_CONTROL
| CONTROL_MODE_POSITION_CONTROL.

Inductive InputMode : Type :=
| INPUT_MODE_PASSTHROUGH.

(** ** Outbound messages

    The message structs are declared in can_simple_messages.hpp; their
    numeric members are [float].  A field below carries the value the
    member holds after the assignment in the interface, that is the
    assigned [double] narrowed by [double_to_float]; the wire encoding of
    that value is the codec's business. *)

Record Set_Input_Pos_msg_t : Type := {
  Input_Pos : float;
  Vel_FF : float;
  Torque_FF : float
}.

Record Set_Input_Vel_msg_t : Type := {
  Input_Vel : float;
  Input_Torque_FF : float
}.

Record Set_Input_Torque_msg_t : Type := {
  Input_Torque : float
}.

Record Set_Controller_Mode_msg_t : Type := {
  Control_Mode : ControlMode;
  Input_Mode : InputMode
}.

Record Clear_Errors_msg_t : Type := {
  Identify : Z
}.

Record Set_Axis_State_msg_t : Type := {
  Axis_Requested_State : AxisState
}.

(** The argument of the template [Axis::send<T>]. *)
Inductive can_msg : Type :=
| Set_Input_Pos (m : Set_Input_Pos_msg_t)
| Set_Input_Vel (m : Set_Input_Vel_msg_t)
| Set_Input_Torque (m : Set_Input_Torque_msg_t)
| Set_Controller_Mode (m : Set_Controller_Mode_msg_t)
| Clear_Errors (m : Clear_Errors_msg_t)
| Set_Axis_State (m : Set_Axis_State_msg_t).

(** One call of [can_intf_->send_can_frame]: the node whose address goes
    into the arbitration id, and the message that is encoded. *)
Record sent_frame : Type := {
  sent_node_id : Z;
  sent_msg : can_msg
}.

(** The kinds of message, for statements about which message was chosen. *)
Inductive msg_kind : Type :=
| KInputPos | KInputVel | KInputTorque
| KControllerMode | KClearErrors | KAxisState.

Definition kind_of (m : can_msg) : msg_kind :=
  match m with
  | Set_Input_Pos _ => KInputPos
  | Set_Input_Vel _ => KInputVel
  | Set_Input_Torque _ => KInputTorque
  | Set_Controller_Mode _ => KControllerMode
  | Clear_Errors _ => KClearErrors
  | Set_Axis_State _ => KAxisState
  end.

(** ** struct Axis *)

Record Axis : Type := mkAxis {
  node_id_ : Z;
  transmission_ratio_ : float;
  reverse_axis_ : bool;
  (* Commands (ros2_control => ODrives) *)
  pos_setpoint_ : float;
  vel_setpoint_ : float;
  torque_setpoint_ : float;
  (* State (ODrives => ros2_control) *)
  pos_estimate_ : float;
  vel_estimate_ : float;
  torque_target_ : float;
  torque_estimate_ : float;
  (* Which controller inputs are enabled *)
  pos_input_enabled_ : bool;
  vel_input_enabled_ : bool;
  torque_input_enabled_ : bool
}.

(** The constructor [Axis(can_intf, node_id, transmission_ratio,
    reverse_axis)] together with the default member initialisers. *)
Definition Axis_new (node_id : Z) (transmission_ratio : float)
    (reverse_axis : bool) : Axis :=
  {| node_id_ := node_id;
     transmission_ratio_ := transmission_ratio;
     reverse_axis_ := reverse_axis;
     pos_setpoint_ := zero_f;
     vel_setpoint_ := zero_f;
     torque_setpoint_ := zero_f;
     pos_estimate_ := NAN;
     vel_estimate_ := NAN;
     torque_target_ := NAN;
     torque_estimate_ := NAN;
     pos_input_enabled_ := false;
     vel_input_enabled_ := false;
     torque_input_enabled_ := false |}.

(** Assignments to the members the interface writes. *)

Definition set_setpoints (axis : Axis) (p v t : float) : Axis :=
  {| node_id_ := node_id_ axis;
     transmission_ratio_ := transmission_ratio_ axis;
     reverse_axis_ := reverse_axis_ axis;
     pos_setpoint_ := p;
     vel_setpoint_ := v;
     torque_setpoint_ := t;
     pos_estimate_ := pos_estimate_ axis;
     vel_estimate_ := vel_estimate_ axis;
     torque_target_ := torque_target_ axis;
     torque_estimate_ := torque_estimate_ axis;
     pos_input_enabled_ := pos_input_enabled_ axis;
     vel_input_enabled_ := vel_input_enabled_ axis;
     torque_input_enabled_ := torque_input_enabled_ axis |}.

Definition set_encoder_estimates (axis : Axis) (p v : float) : Axis :=
  {| node_id_ := node_id_ axis;
     transmission_ratio_ := transmission_ratio_ axis;
     reverse_axis_ := reverse_axis_ axis;
     pos_setpoint_ := pos_setpoint_ axis;
     vel_setpoint_ := vel_setpoint_ axis;
     torque_setpoint_ := torque_setpoint_ axis;
     pos_estimate_ := p;
     vel_estimate_ := v;
     torque_target_ := torque_target_ axis;
     torque_estimate_ := torque_estimate_ axis;
     pos_input_enabled_ := pos_input_enabled_ axis;
     vel_input_enabled_ := vel_input_enabled_ axis;
     torque_input_enabled_ := torque_input_enabled_ axis |}.

Definition set_torques (axis : Axis) (target estimate : float) : Axis :=
  {| node_id_ := node_id_ axis;
     transmission_ratio_ := transmission_ratio_ axis;
     reverse_axis_ := reverse_axis_ axis;
     pos_setpoint_ := pos_setpoint_ axis;
     vel_setpoint_ := vel_setpoint_ axis;
     torque_setpoint_ := torque_setpoint_ axis;
     pos_estimate_ := pos_estimate_ axis;
     vel_estimate_ := vel_estimate_ axis;
     torque_target_ := target;
     torque_estimate_ := estimate;
     pos_input_enabled_ := pos_input_enabled_ axis;
     vel_input_enabled_ := vel_input_enabled_ axis;
     torque_input_enabled_ := torque_input_enabled_ axis |}.

Definition set_estimates (axis : Axis) (p v t : float) : Axis :=
  {| node_id_ := node_id_ axis;
     transmission_ratio_ := transmission_ratio_ axis;
     reverse_axis_ := reverse_axis_ axis;
     pos_setpoint_ := pos_setpoint_ axis;
     vel_setpoint_ := vel_setpoint_ axis;
     torque_setpoint_ := torque_setpoint_ axis;
     pos_estimate_ := p;
     vel_estimate_ := v;
     torque_target_ := torque_target_ axis;
     torque_estimate_ := t;
     pos_input_enabled_ := pos_input_enabled_ axis;
     vel_input_enabled_ := vel_input_enabled_ axis;
     torque_input_enabled_ := torque_input_enabled_ axis |}.

Definition set_inputs_enabled (axis : Axis) (p v t : bool) : Axis :=
  {| node_id_ := node_id_ axis;
     transmission_ratio_ := transmission_ratio_ axis;
     reverse_axis_ := reverse_axis_ axis;
     pos_setpoint_ := pos_setpoint_ axis;
     vel_setpoint_ := vel_setpoint_ axis;
     torque_setpoint_ := torque_setpoint_ axis;
     pos_estimate_ := pos_estimate_ axis;
     vel_estimate_ := vel_estimate_ axis;
     torque_target_ := torque_target_ axis;
     torque_estimate_ := torque_estimate_ axis;
     pos_input_enabled_ := p;
     vel_input_enabled_ := v;
     torque_input_enabled_ := t |}.

(** [Axis::send]: one frame handed to the transport, addressed with the
    axis's own node id. *)
Definition Axis_send (axis : Axis) (msg : can_msg) : sent_frame :=
  {| sent_node_id := node_id_ axis; sent_msg := msg |}.

(** ** ODriveHardwareInterface::write *)

Section Write.
Local Open Scope float_scope.

(** The message built in the [pos_input_enabled_] branch. *)
Definition write_pos_msg (axis : Axis) : Set_Input_Pos_msg_t :=
  if reverse_axis_ axis then
    {| Input_Pos :=
         double_to_float
           ((- pos_setpoint_ axis)
            / (two * M_PI * transmission_ratio_ axis));
       Vel_FF :=
         double_to_float
           (if int_to_bool (neg_bool (vel_input_enabled_ axis))
            then vel_setpoint_ axis / (two * M_PI * transmission_ratio_ axis)
            else zero_f);
       Torque_FF :=
         double_to_float
           (if int_to_bool (neg_bool (torque_input_enabled_ axis))
            then torque_setpoint_ axis / transmission_ratio_ axis
            else zero_f) |}
  else
    {| Input_Pos :=
         double_to_float
           (pos_setpoint_ axis / (two * M_PI * transmission_ratio_ axis));
       Vel_FF :=
         double_to_float
           (if vel_input_enabled_ axis
            then vel_setpoint_ axis / (two * M_PI * transmission_ratio_ axis)
            else zero_f);
       Torque_FF :=
         double_to_float
           (if torque_input_enabled_ axis
            then torque_setpoint_ axis / transmission_ratio_ axis
            else zero_f) |}.

(** The message built in the [vel_input_enabled_] branch. *)
Definition write_vel_msg (axis : Axis) : Set_Input_Vel_msg_t :=
  if reverse_axis_ axis then
    {| Input_Vel :=
         double_to_float
           ((- vel_setpoint_ axis)
            / (two * M_PI * transmission_ratio_ axis));
       Input_Torque_FF :=
         double_to_float
           (if int_to_bool (neg_bool (torque_input_enabled_ axis))
            then torque_setpoint_ axis / transmission_ratio_ axis
            else zero_f) |}
  else
    {| Input_Vel :=
         double_to_float
           (vel_setpoint_ axis / (two * M_PI * transmission_ratio_ axis));
       Input_Torque_FF :=
         double_to_float
           (if torque_input_enabled_ axis
            then torque_setpoint_ axis / transmission_ratio_ axis
            else zero_f) |}.

(** The message built in the [torque_input_enabled_] branch. *)
Definition write_torque_msg (axis : Axis) : Set_Input_Torque_msg_t :=
  if reverse_axis_ axis then
    {| Input_Torque :=
         double_to_float
           ((- torque_setpoint_ axis) / transmission_ratio_ axis) |}
  else
    {| Input_Torque :=
         double_to_float
           (torque_setpoint_ axis / transmission_ratio_ axis) |}.

(** The body of the loop of [write]: the frames sent for one axis. *)
Definition write_axis (axis : Axis) : list sent_frame :=
  if pos_input_enabled_ axis then
    [Axis_send axis (Set_Input_Pos (write_pos_msg axis))]
  else if vel_input_enabled_ axis then
    [Axis_send axis (Set_Input_Vel (write_vel_msg axis))]
  else if torque_input_enabled_ axis then
    [Axis_send axis (Set_Input_Torque (write_torque_msg axis))]
  else
    [].

(** [write]: the loop over [axes_]; the frames are sent in axis order. *)
Definition write (axes : list Axis) : list sent_frame :=
  flat_map write_axis axes.

End Write.

(** ** ODriveHardwareInterface::set_axis_command_mode and its callers *)

(** The members of the interface that the modelled methods use;
    [joints_] holds [info_.joints[i].name], index by index with [axes_]. *)
Record ODriveHardwareInterface : Type := {
  active_ : bool;
  axes_ : list Axis;
  joints_ : list string
}.

(** The [if]/[else if] chain of [set_axis_command_mode] that runs when the
    interface is active: the axis after it, and the [Control_Mode] written
    into [control_msg], or [None] where the chain ends in the early
    [return] of its last branch. *)
Definition select_control_mode (axis : Axis) : Axis * option ControlMode :=
  if pos_input_enabled_ axis then
    (* initialize the position setpoint to the current encoder reading *)
    (set_setpoints axis (pos_estimate_ axis) zero_f zero_f,
     Some CONTROL_MODE_POSITION_CONTROL)
  else if vel_input_enabled_ axis then
    (axis, Some CONTROL_MODE_VELOCITY_CONTROL)
  else if torque_input_enabled_ axis then
    (axis, Some CONTROL_MODE_TORQUE_CONTROL)
  else
    (axis, None).

(** [set_axis_command_mode(axis)] under a given value of [active_]:
    the axis after the call and the frames sent, in order. *)
Definition set_axis_command_mode (active : bool) (axis : Axis)
    : Axis * list sent_frame :=
  if negb active then
    let idle_msg := {| Axis_Requested_State := AXIS_STATE_IDLE |} in
    (axis, [Axis_send axis (Set_Axis_State idle_msg)])
  else
    match select_control_mode axis with
    | (axis, Some mode) =>
        let control_msg :=
          {| Control_Mode := mode; Input_Mode := INPUT_MODE_PASSTHROUGH |} in
        let clear_error_msg := {| Identify := 0 |} in
        let state_msg :=
          {| Axis_Requested_State := AXIS_STATE_CLOSED_LOOP_CONTROL |} in
        (axis, [Axis_send axis (Set_Controller_Mode control_msg);
                Axis_send axis (Clear_Errors clear_error_msg);
                Axis_send axis (Set_Axis_State state_msg)])
    | (axis, None) =>
        let state_msg := {| Axis_Requested_State := AXIS_STATE_IDLE |} in
        (axis, [Axis_send axis (Set_Axis_State state_msg)])
    end.

(** [for (auto& axis : axes_) body(axis);] for a body that may change the
    axis and send frames. *)
Fixpoint for_each_axis (body : Axis -> Axis * list sent_frame)
    (axes : list Axis) : list Axis * list sent_frame :=
  match axes with
  | [] => ([], [])
  | axis :: rest =>
      let (axis', out) := body axis in
      let (rest', out') := for_each_axis body rest in
      (axis' :: rest', out ++ out')
  end.

Definition on_activate (hw : ODriveHardwareInterface)
    : ODriveHardwareInterface * list sent_frame :=
  let (axes, out) := for_each_axis (set_axis_command_mode true) (axes_ hw) in
  ({| active_ := true; axes_ := axes; joints_ := joints_ hw |}, out).

Definition on_deactivate (hw : ODriveHardwareInterface)
    : ODriveHardwareInterface * list sent_frame :=
  let (axes, out) := for_each_axis (set_axis_command_mode false) (axes_ hw) in
  ({| active_ := false; axes_ := axes; joints_ := joints_ hw |}, out).

(** The interface names of hardware_interface_type_values.hpp. *)
Definition HW_IF_POSITION : string := "position".
Definition HW_IF_VELOCITY : string := "velocity".
Definition HW_IF_EFFORT : string := "effort".

(** The inner loop [for (auto& kv : interfaces) if (kv.first == key) ...]
    for one key: the three flags and [mode_switch], before and after. *)
Definition switch_key (joint : string) (value : bool)
    (st : bool * bool * bool * bool) (key : string)
    : bool * bool * bool * bool :=
  let '(p, v, t, mode_switch) := st in
  let '(p, mode_switch) :=
    if String.eqb (joint ++ "/" ++ HW_IF_POSITION) key
    then (value, true) else (p, mode_switch) in
  let '(v, mode_switch) :=
    if String.eqb (joint ++ "/" ++ HW_IF_VELOCITY) key
    then (value, true) else (v, mode_switch) in
  let '(t, mode_switch) :=
    if String.eqb (joint ++ "/" ++ HW_IF_EFFORT) key
    then (value, true) else (t, mode_switch) in
  (p, v, t, mode_switch).

(** The body of the loop of [perform_command_mode_switch] for axis [i]. *)
Definition switch_axis (active : bool)
    (start_interfaces stop_interfaces : list string)
    (joint : string) (axis : Axis) : Axis * list sent_frame :=
  let st := (pos_input_enabled_ axis, vel_input_enabled_ axis,
             torque_input_enabled_ axis, false) in
  let st := fold_left (switch_key joint false) stop_interfaces st in
  let st := fold_left (switch_key joint true) start_interfaces st in
  let '(p, v, t, mode_switch) := st in
  let axis := set_inputs_enabled axis p v t in
  if mode_switch then set_axis_command_mode active axis else (axis, []).

(** The loop over [i]; [info_.joints] and [axes_] have the same size, as
    [on_init] builds one axis per joint. *)
Fixpoint switch_axes (active : bool)
    (start_interfaces stop_interfaces : list string)
    (joints : list string) (axes : list Axis)
    : list Axis * list sent_frame :=
  match axes, joints with
  | axis :: rest, joint :: joints' =>
      let (axis', out) :=
        switch_axis active start_interfaces stop_interfaces joint axis in
      let (rest', out') :=
        switch_axes active start_interfaces stop_interfaces joints' rest in
      (axis' :: rest', out ++ out')
  | _, _ => (axes, [])
  end.

Definition perform_command_mode_switch
    (start_interfaces stop_interfaces : list string)
    (hw : ODriveHardwareInterface)
    : ODriveHardwareInterface * list sent_frame :=
  let (axes, out) :=
    switch_axes (active_ hw) start_interfaces stop_interfaces
      (joints_ hw) (axes_ hw) in
  ({| active_ := active_ hw; axes_ := axes; joints_ := joints_ hw |}, out).

(** ** Inbound frames *)

(** [struct can_frame], as far as the interface reads it. *)
Record can_frame : Type := {
  can_id : Z;
  can_dlc : Z;
  data : list byte
}.

Record Get_Encoder_Estimates_msg_t : Type := {
  Pos_Estimate : float;
  Vel_Estimate : float
}.

Record Get_Torques_msg_t : Type := {
  Torque_Target : float;
  Torque_Estimate : float
}.

(** What [Axis::on_can_msg] takes from can_simple_messages.hpp, which is
    not among the sources: the command identifier of the two inbound
    messages, the length that [try_decode] compares with, and [decode_buf].
    The decoded fields are the message's [float] members, each of which is
    exactly a [double]. *)
Class CanSimpleMessages : Type := {
  Get_Encoder_Estimates_cmd_id : Z;
  Get_Encoder_Estimates_msg_length : Z;
  Get_Encoder_Estimates_decode_buf : list byte -> Get_Encoder_Estimates_msg_t;
  Get_Torques_cmd_id : Z;
  Get_Torques_msg_length : Z;
  Get_Torques_decode_buf : list byte -> Get_Torques_msg_t
}.

Section Inbound.
Context {codec : CanSimpleMessages}.
Local Open Scope float_scope.

(** The lambda [try_decode]: [None] for [return false], otherwise the
    decoded message.  The length compared with is that of
    [Get_Encoder_Estimates_msg_t] for every [TMsg]. *)
Definition try_decode {TMsg : Type} (frame : can_frame)
    (decode_buf : list byte -> TMsg) : option TMsg :=
  if (can_dlc frame <? Get_Encoder_Estimates_msg_length)%Z then None
  else Some (decode_buf (data frame)).

(** [Axis::on_can_msg(timestamp, frame)]. *)
Definition Axis_on_can_msg (axis : Axis) (frame : can_frame) : Axis :=
  let cmd := Z.land (can_id frame) 0x1f in
  if (cmd =? Get_Encoder_Estimates_cmd_id)%Z then
    match try_decode frame Get_Encoder_Estimates_decode_buf with
    | Some msg =>
        set_encoder_estimates axis
          (Pos_Estimate msg * (two * M_PI))
          (Vel_Estimate msg * (two * M_PI))
    | None => axis
    end
  else if (cmd =? Get_Torques_cmd_id)%Z then
    match try_decode frame Get_Torques_decode_buf with
    | Some msg => set_torques axis (Torque_Target msg) (Torque_Estimate msg)
    | None => axis
    end
  else
    (* silently ignore unimplemented command IDs *)
    axis.

(** The test of [ODriveHardwareInterface::on_can_msg]. *)
Definition addressed_to (frame : can_frame) (axis : Axis) : bool :=
  (Z.shiftr (can_id frame) 5 =? node_id_ axis)%Z.

(** [ODriveHardwareInterface::on_can_msg(frame)]. *)
Definition on_can_msg (axes : list Axis) (frame : can_frame) : list Axis :=
  map (fun axis =>
         if addressed_to frame axis then Axis_on_can_msg axis frame
         else axis)
      axes.

(** The conversion loop of [read] for one axis. *)
Definition read_convert (axis : Axis) : Axis :=
  if negb (reverse_axis_ axis) then
    set_estimates axis
      (pos_estimate_ axis * (- transmission_ratio_ axis))
      (vel_estimate_ axis * (- transmission_ratio_ axis))
      (torque_estimate_ axis * (- transmission_ratio_ axis))
  else
    set_estimates axis
      (pos_estimate_ axis * transmission_ratio_ axis)
      (vel_estimate_ axis * transmission_ratio_ axis)
      (torque_estimate_ axis * transmission_ratio_ axis).

(** [read]: [pending] are the frames the transport holds; each call of
    [read_nonblocking] delivers one of them to [on_can_msg], until none is
    left; then every axis is converted. *)
Definition read (pending : list can_frame) (axes : list Axis) : list Axis :=
  map read_convert (fold_left on_can_msg pending axes).

End Inbound.

(** ** An instance of the message header *)

(** [can_get_signal_raw<uint32_t>(buf, start, 32, true)] at a byte
    boundary: four bytes, least significant first.  A missing byte reads
    as zero. *)
Definition le_u32 (buf : list byte) (start : nat) : Z :=
  let b (i : nat) := Z.of_N (Byte.to_N (nth (start + i) buf x00)) in
  Z.lor (b 0%nat)
    (Z.lor (Z.shiftl (b 1%nat) 8)
       (Z.lor (Z.shiftl (b 2%nat) 16) (Z.shiftl (b 3%nat) 24))).

(** The [float] with a given IEEE 754 binary32 bit pattern, as the
    [double] it converts to. *)
Definition float_of_bits32 (w : Z) : float :=
  let s := Z.testbit w 31 in
  let e := Z.land (Z.shiftr w 23) 0xff in
  let m := Z.land w 0x7fffff in
  SF2Prim
    (if (e =? 0)%Z then
       match m with
       | Zpos p => S754_finite s p (-149)
       | _ => S754_zero s
       end
     else if (e =? 255)%Z then
       if (m =? 0)%Z then S754_infinity s else S754_nan
     else
       match (m + 0x800000)%Z with
       | Zpos p => S754_finite s p (e - 150)
       | _ => S754_zero s
       end).

(** Modelled from the spec: can_simple_messages.hpp is not among the
    sources.  Per the message codec of the spec, each message has a 5-bit
    command identifier, a fixed payload length and a little-endian layout
    of its typed fields; the identifiers (0x09, 0x1c), the length (8) and
    the two 32-bit float fields of each message are those of the device's
    published command set. *)
#[export] Instance odrive_can_simple : CanSimpleMessages := {|
  Get_Encoder_Estimates_cmd_id := 0x09;
  Get_Encoder_Estimates_msg_length := 8;
  Get_Encoder_Estimates_decode_buf := fun buf =>
    {| Pos_Estimate := float_of_bits32 (le_u32 buf 0);
       Vel_Estimate := float_of_bits32 (le_u32 buf 4) |};
  Get_Torques_cmd_id := 0x1c;
  Get_Torques_msg_length := 8;
  Get_Torques_decode_buf := fun buf =>
    {| Torque_Target := float_of_bits32 (le_u32 buf 0);
       Torque_Estimate := float_of_bits32 (le_u32 buf 4) |}
|}.

(** ** Notions used in the statements *)

(** The length a frame with command identifier [cmd] must have: the
    [msg_length] of the message type that [cmd] selects. *)
Definition required_length {codec : CanSimpleMessages} (cmd : Z) : option Z :=
  if (cmd =? Get_Encoder_Estimates_cmd_id)%Z
  then Some Get_Encoder_Estimates_msg_length
  else if (cmd =? Get_Torques_cmd_id)%Z
  then Some Get_Torques_msg_length
  else None.

(** The factor that [read] multiplies the estimates of an axis with. *)
Definition read_factor (axis : Axis) : float :=
  if reverse_axis_ axis then transmission_ratio_ axis
  else (- transmission_ratio_ axis)%float.

(** Everything [write] reads from an axis: its configuration, the three
    setpoints and the three enabled flags. *)
Definition Axis_inputs (axis : Axis)
    : Z * float * bool * (float * float * float) * (bool * bool * bool) :=
  (node_id_ axis, transmission_ratio_ axis, reverse_axis_ axis,
   (pos_setpoint_ axis, vel_setpoint_ axis, torque_setpoint_ axis),
   (pos_input_enabled_ axis, vel_input_enabled_ axis,
    torque_input_enabled_ axis)).

(** Who sent which kind of message. *)
Definition sender_and_kind (f : sent_frame) : Z * msg_kind :=
  (sent_node_id f, kind_of (sent_msg f)).

(** The request that puts a drive into the idle state. *)
Definition idle_request : can_msg :=
  Set_Axis_State {| Axis_Requested_State := AXIS_STATE_IDLE |}.

(** Whether [frame] is one that [on_can_msg] hands to [axis] and that the
    axis decodes as encoder estimates. *)
Definition decoded_as_encoder_estimates {codec : CanSimpleMessages}
    (frame : can_frame) (axis : Axis) : bool :=
  addressed_to frame axis
  && (Z.land (can_id frame) 0x1f =? Get_Encoder_Estimates_cmd_id)%Z
  && negb (can_dlc frame <? Get_Encoder_Estimates_msg_length)%Z.

(** A run of read cycles, each with the frames pending when it starts. *)
Definition read_cycles {codec : CanSimpleMessages}
    (cycles : list (list can_frame)) (axes : list Axis) : list Axis :=
  fold_left (fun axes pending => read pending axes) cycles axes.

(** The axes are the single axis [a0], configured as it was, with a
    position estimate that is still NaN. *)
Definition still_unknown (a0 : Axis) (axes : list Axis) : Prop :=
  exists a : Axis,
    axes = [a] /\
    node_id_ a = node_id_ a0 /\
    transmission_ratio_ a = transmission_ratio_ a0 /\
    reverse_axis_ a = reverse_axis_ a0 /\
    pos_estimate_ a = NAN.

(** ** Sample axes and frames *)

(** Address 5, gear ratio 2, not reversed; the position channel is enabled
    and the position setpoint is pi. *)
Definition axis_pos_pi : Axis :=
  set_inputs_enabled
    (set_setpoints (Axis_new 5 2 false) M_PI zero_f zero_f)
    true false false.

(** Address 5, gear ratio 1, reversed; all three channels are enabled, the
    position and velocity setpoints are one turn (per second), the torque
    setpoint is 1 Nm. *)
Definition axis_reversed_ff : Axis :=
  set_inputs_enabled
    (set_setpoints (Axis_new 5 1 true)
       (two * M_PI)%float (two * M_PI)%float 1%float)
    true true true.

(** Address 5, gear ratio 3, not reversed, as constructed. *)
Definition axis_gear3 : Axis := Axis_new 5 3 false.

(** An encoder-estimates frame for node 5 with Pos_Estimate = 0.5 and
    Vel_Estimate = 0. *)
Definition encoder_frame_half_turn : can_frame :=
  {| can_id := Z.lor (Z.shiftl 5 5) 0x09;
     can_dlc := 8;
     data := [x00; x00; x00; x3f; x00; x00; x00; x00] |}.

(** An encoder-estimates frame for node 5 with Pos_Estimate = 0.25 and
    Vel_Estimate = 0. *)
Definition encoder_frame_quarter_turn : can_frame :=
  {| can_id := Z.lor (Z.shiftl 5 5) 0x09;
     can_dlc := 8;
     data := [x00; x00; x80; x3e; x00; x00; x00; x00] |}.

(** The same frame cut to four bytes. *)
Definition encoder_frame_truncated : can_frame :=
  {| can_id := Z.lor (Z.shiftl 5 5) 0x09;
     can_dlc := 4;
     data := [x00; x00; x00; x3f] |}.

(** An encoder-estimates frame of node 7. *)
Definition encoder_frame_other_node : can_frame :=
  {| can_id := Z.lor (Z.shiftl 7 5) 0x09;
     can_dlc := 8;
     data := [x00; x00; x00; x3f; x00; x00; x00; x00] |}.

(** Address 5, gear ratio 1, not reversed, with finite estimates. *)
Definition axis_unit_gear : Axis :=
  set_torques
    (set_encoder_estimates (Axis_new 5 1 false) 1%float 2%float)
    3%float 3%float.

(** Address 5, gear ratio 2, not reversed, with finite estimates. *)
Definition axis_gear2 : Axis :=
  set_torques
    (set_encoder_estimates (Axis_new 5 2 false) 1%float 2%float)
    3%float 3%float.

(** Address 5, gear ratio 2, all three channels enabled, stale setpoints,
    a position estimate of 1.5 rad. *)
Definition axis_all_enabled : Axis :=
  set_inputs_enabled
    (set_setpoints
       (set_encoder_estimates (Axis_new 5 2 false) 1.5%float 0%float)
       7%float 8%float 9%float)
    true true true.

(** One joint, one axis, nothing received yet. *)
Definition hw_fresh : ODriveHardwareInterface :=
  {| active_ := false;
     axes_ := [Axis_new 5 2 false];
     joints_ := ["joint1"%string] |}.

(** ** Axis::send: the arbitration id *)

(** Conversion to [uint32_t]. *)
Definition uint32 (z : Z) : Z := z mod 2 ^ 32.

(** [frame.can_id = node_id_ << 5 | msg.cmd_id]: the shift is done in
    [uint32_t]; [cmd_id] is the command id of the message type. *)
Definition Axis_send_can_id (node_id cmd_id : Z) : Z :=
  Z.lor (uint32 (Z.shiftl node_id 5)) cmd_id.

(** ** ODriveHardwareInterface::on_init *)

(** [hardware_interface::ComponentInfo], as far as [on_init] reads it; the
    [unordered_map] of parameters is given by its entries. *)
Record ComponentInfo : Type := {
  name : string;
  parameters : list (string * string)
}.

(** [hardware_interface::HardwareInfo], as far as [on_init] reads it. *)
Record HardwareInfo : Type := {
  joints : list ComponentInfo
}.

(** [m.find(key)]: the mapped value, or [None] for [m.end()]. *)
Fixpoint find (key : string) (m : list (string * string)) : option string :=
  match m with
  | [] => None
  | (k, v) :: rest => if String.eqb k key then Some v else find key rest
  end.

(** How a call of [on_init] ends. *)
Inductive on_init_result : Type :=
| OnInitSuccess (hw : ODriveHardwareInterface)
| OnInitError
| OnInitThrows (axes : list Axis).

Section OnInit.

(** [std::stod] and [std::stoi]; [None] where they throw. *)
Variable stod : string -> option float.
Variable stoi : string -> option Z.

(** The body of the loop over [info_.joints]: the axis that is appended,
    or [None] when [std::stod], [parameters.at] or [std::stoi] throws. *)
Definition on_init_joint (joint : ComponentInfo) : option Axis :=
  let transmission_ratio :=
    match find "transmission_ratio" (parameters joint) with
    | Some s => stod s
    | None => Some 1%float
    end in
  match transmission_ratio with
  | None => None
  | Some transmission_ratio =>
      let reverse_axis :=
        match find "reverse_axis" (parameters joint) with
        | Some reverse_axis_str =>
            String.eqb reverse_axis_str "true"
            || String.eqb reverse_axis_str "1"
        | None => false
        end in
      match find "node_id" (parameters joint) with
      | None => None
      | Some s =>
          match stoi s with
          | None => None
          | Some node_id =>
              Some (Axis_new (uint32 node_id) transmission_ratio
                      reverse_axis)
          end
      end
  end.

(** The loop: the axes after it, and whether it ran to its end. *)
Fixpoint on_init_loop (js : list ComponentInfo) (axes : list Axis)
    : list Axis * bool :=
  match js with
  | [] => (axes, true)
  | joint :: rest =>
      match on_init_joint joint with
      | Some axis => on_init_loop rest (axes ++ [axis])
      | None => (axes, false)
      end
  end.

(** [on_init(info)]; [base_ok] tells whether [SystemInterface::on_init]
    returned SUCCESS, after which [info_] is [info].  The name of the CAN
    interface, which [on_init] also stores, belongs to the transport. *)
Definition on_init (base_ok : bool) (info : HardwareInfo)
    (hw : ODriveHardwareInterface) : on_init_result :=
  if negb base_ok then OnInitError
  else
    match on_init_loop (joints info) (axes_ hw) with
    | (axes, true) =>
        OnInitSuccess
          {| active_ := active_ hw;
             axes_ := axes;
             joints_ := map name (joints info) |}
    | (axes, false) => OnInitThrows axes
    end.

End OnInit.

(** ** export_state_interfaces and export_command_interfaces *)

(** The member of [Axis] that an exported pointer addresses. *)
Inductive state_member : Type :=
| Ptr_torque_target | Ptr_vel_estimate | Ptr_pos_estimate.

Inductive command_member : Type :=
| Ptr_torque_setpoint | Ptr_vel_setpoint | Ptr_pos_setpoint.

(** [StateInterface(joint, interface, &axes_[i].member)]. *)
Record StateInterface : Type := {
  state_joint : string;
  state_interface_name : string;
  state_axis : nat;
  state_ptr : state_member
}.

(** [CommandInterface(joint, interface, &axes_[i].member)]. *)
Record CommandInterface : Type := {
  command_joint : string;
  command_interface_name : string;
  command_axis : nat;
  command_ptr : command_member
}.

(** The loop of [export_state_interfaces] from index [i] on. *)
Fixpoint export_state_from (i : nat) (js : list string)
    : list StateInterface :=
  match js with
  | [] => []
  | joint :: rest =>
      {| state_joint := joint; state_interface_name := HW_IF_EFFORT;
         state_axis := i; state_ptr := Ptr_torque_target |}
      :: {| state_joint := joint; state_interface_name := HW_IF_VELOCITY;
            state_axis := i; state_ptr := Ptr_vel_estimate |}
      :: {| state_joint := joint; state_interface_name := HW_IF_POSITION;
            state_axis := i; state_ptr := Ptr_pos_estimate |}
      :: export_state_from (S i) rest
  end.

Definition export_state_interfaces (hw : ODriveHardwareInterface)
    : list StateInterface :=
  export_state_from 0 (joints_ hw).

(** The loop of [export_command_interfaces] from index [i] on. *)
Fixpoint export_command_from (i : nat) (js : list string)
    : list CommandInterface :=
  match js with
  | [] => []
  | joint :: rest =>
      {| command_joint := joint; command_interface_name := HW_IF_EFFORT;
         command_axis := i; command_ptr := Ptr_torque_setpoint |}
      :: {| command_joint := joint;
            command_interface_name := HW_IF_VELOCITY;
            command_axis := i; command_ptr := Ptr_vel_setpoint |}
      :: {| command_joint := joint;
            command_interface_name := HW_IF_POSITION;
            command_axis := i; command_ptr := Ptr_pos_setpoint |}
      :: export_command_from (S i) rest
  end.

Definition export_command_interfaces (hw : ODriveHardwareInterface)
    : list CommandInterface :=
  export_command_from 0 (joints_ hw).

(** Reading through the pointer of a state interface. *)
Definition state_value (axes : list Axis) (h : StateInterface)
    : option float :=
  match nth_error axes (state_axis h) with
  | Some axis =>
      Some match state_ptr h with
           | Ptr_torque_target => torque_target_ axis
           | Ptr_vel_estimate => vel_estimate_ axis
           | Ptr_pos_estimate => pos_estimate_ axis
           end
  | None => None
  end.

(** Writing through the pointer of a command interface. *)
Definition command_store (axis : Axis) (m : command_member) (value : float)
    : Axis :=
  match m with
  | Ptr_torque_setpoint =>
      set_setpoints axis (pos_setpoint_ axis) (vel_setpoint_ axis) value
  | Ptr_vel_setpoint =>
      set_setpoints axis (pos_setpoint_ axis) value (torque_setpoint_ axis)
  | Ptr_pos_setpoint =>
      set_setpoints axis value (vel_setpoint_ axis) (torque_setpoint_ axis)
  end.

Fixpoint store_at (i : nat) (m : command_member) (value : float)
    (axes : list Axis) : list Axis :=
  match axes, i with
  | [], _ => []
  | axis :: rest, O => command_store axis m value :: rest
  | axis :: rest, S i' => axis :: store_at i' m value rest
  end.

Definition command_set_value (axes : list Axis) (h : CommandInterface)
    (value : float) : list Axis :=
  store_at (command_axis h) (command_ptr h) value axes.

(** ** Further notions used in the statements *)

(** Whether one of [keys] is the full name of [interface] of [joint]. *)
Definition mentions (joint interface : string) (keys : list string)
    : bool :=
  existsb (String.eqb (joint ++ "/" ++ interface)) keys.

(** Whether one of [keys] names any of the three interfaces of [joint]. *)
Definition mentions_joint (joint : string) (keys : list string) : bool :=
  mentions joint HW_IF_POSITION keys
  || mentions joint HW_IF_VELOCITY keys
  || mentions joint HW_IF_EFFORT keys.

(** A flag after the stop loop and the start loop. *)
Definition switched (joint interface : string)
    (start_interfaces stop_interfaces : list string) (flag : bool) : bool :=
  if mentions joint interface start_interfaces then true
  else if mentions joint interface stop_interfaces then false
  else flag.

(** The configuration of an axis and what the drive reported. *)
Definition Axis_feedback (axis : Axis)
    : Z * float * bool * (float * float * float * float) :=
  (node_id_ axis, transmission_ratio_ axis, reverse_axis_ axis,
   (pos_estimate_ axis, vel_estimate_ axis, torque_target_ axis,
    torque_estimate_ axis)).

(** The three enabled flags. *)
Definition Axis_enabled (axis : Axis) : bool * bool * bool :=
  (pos_input_enabled_ axis, vel_input_enabled_ axis,
   torque_input_enabled_ axis).

Definition any_enabled (axis : Axis) : bool :=
  pos_input_enabled_ axis || vel_input_enabled_ axis
  || torque_input_enabled_ axis.

(** The controller mode that a list of sent frames requests, if any. *)
Fixpoint requested_mode (out : list sent_frame) : option ControlMode :=
  match out with
  | [] => None
  | f :: rest =>
      match sent_msg f with
      | Set_Controller_Mode m => Some (Control_Mode m)
      | _ => requested_mode rest
      end
  end.

(** The setpoint message that belongs to a controller mode. *)
Definition setpoint_kind (mode : ControlMode) : msg_kind :=
  match mode with
  | CONTROL_MODE_POSITION_CONTROL => KInputPos
  | CONTROL_MODE_VELOCITY_CONTROL => KInputVel
  | CONTROL_MODE_TORQUE_CONTROL => KInputTorque
  end.

(** A binary64 value that is not a finite number. *)
Definition not_finite (x : float) : Prop :=
  x = nan \/ x = infinity \/ x = neg_infinity.

(** ** Further samples *)

(** The values of [std::stoi] and [std::stod] on the strings of the
    sample description below; they throw on the empty string. *)
Definition stoi_sample (s : string) : option Z :=
  if String.eqb s "5" then Some 5%Z
  else if String.eqb s "7" then Some 7%Z
  else None.

Definition stod_sample (s : string) : option float :=
  if String.eqb s "2.0" then Some 2%float
  else if String.eqb s "0" then Some 0%float
  else None.

(** Two joints: the first with a gear ratio and the reversal flag, the
    second with its node id only. *)
Definition info_two_joints : HardwareInfo :=
  {| joints :=
       [ {| name := "shoulder";
            parameters := [("node_id", "5"); ("transmission_ratio", "2.0");
                           ("reverse_axis", "true")] |};
         {| name := "elbow";
            parameters := [("node_id", "7")] |} ]%string |}.

(** A description whose second joint has no node id. *)
Definition info_missing_node_id : HardwareInfo :=
  {| joints :=
       [ {| name := "shoulder"; parameters := [("node_id", "5")] |};
         {| name := "elbow"; parameters := [("reverse_axis", "1")] |}
       ]%string |}.

(** The interface before [on_init]. *)
Definition hw_empty : ODriveHardwareInterface :=
  {| active_ := false; axes_ := []; joints_ := [] |}.

(** Two axes, of the joints "shoulder" (node 5) and "elbow" (node 7), the
    interface active; the elbow has its velocity channel enabled. *)
Definition hw_two_axes : ODriveHardwareInterface :=
  {| active_ := true;
     axes_ := [axis_gear2;
               set_inputs_enabled (Axis_new 7 1 false) false true false];
     joints_ := ["shoulder"; "elbow"]%string |}.

(** One joint whose axis runs in position mode with all three channels
    enabled, setpoints 7, 8, 9 and a position estimate of 1.5 rad. *)
Definition hw_running : ODriveHardwareInterface :=
  {| active_ := true;
     axes_ := [axis_all_enabled];
     joints_ := ["joint1"%string] |}.

(** A torque frame for node 5 with Torque_Target = 0.5 and
    Torque_Estimate = 0.5. *)
Definition torque_frame_node5 : can_frame :=
  {| can_id := Z.lor (Z.shiftl 5 5) 0x1c;
     can_dlc := 8;
     data := [x00; x00; x00; x3f; x00; x00; x00; x3f] |}.

(** A frame for node 5 with a command id that is not decoded. *)
Definition heartbeat_frame_node5 : can_frame :=
  {| can_id := Z.lor (Z.shiftl 5 5) 0x01;
     can_dlc := 8;
     data := [x00; x00; x00; x00; x08; x00; x00; x00] |}.

(** Address 5, not reversed, with a transmission ratio of zero and the
    three channels enabled. *)
Definition axis_zero_ratio : Axis :=
  set_inputs_enabled
    (set_setpoints (Axis_new 5 0 false) 1%float 1%float 1%float)
    true true true.

(** * Properties *)

(** ** NaN in binary64 arithmetic *)

Section NaN.
Local Open Scope float_scope.

Lemma nan_mul (y : float) : nan * y = nan.
Proof. apply Prim2SF_inj. rewrite mul_spec. reflexivity. Qed.

Lemma nan_div (y : float) : nan / y = nan.
Proof. apply Prim2SF_inj. rewrite div_spec. reflexivity. Qed.

Lemma opp_nan : - nan = nan.
Proof. reflexivity. Qed.

Lemma quarter_not_minus_quarter : 0.25 <> -0.25.
Proof.
  intro H.
  assert (E : (0.25 <? 0) = (-0.25 <? 0)) by (rewrite H at 1; reflexivity).
  vm_compute in E. discriminate E.
Qed.

End NaN.

(** ** The write path *)

Section WritePath.
Local Open Scope float_scope.

Lemma write_axis_pos (axis : Axis) :
  pos_input_enabled_ axis = true ->
  write_axis axis = [Axis_send axis (Set_Input_Pos (write_pos_msg axis))].
Proof. intro H. unfold write_axis. now rewrite H. Qed.

(** With [-b ? x : 0.0f] the minus sign is applied to the flag and the
    value of the conditional is that of [b ? x : 0.0f]. *)
Lemma int_to_bool_neg_bool (b : bool) : int_to_bool (neg_bool b) = b.
Proof. now destruct b. Qed.

(** So on a reversed axis only the primary setpoint is negated. *)
Lemma write_pos_msg_reversed (axis : Axis) :
  reverse_axis_ axis = true ->
  write_pos_msg axis =
    {| Input_Pos :=
         double_to_float
           ((- pos_setpoint_ axis)
            / (two * M_PI * transmission_ratio_ axis));
       Vel_FF :=
         double_to_float
           (if vel_input_enabled_ axis
            then vel_setpoint_ axis / (two * M_PI * transmission_ratio_ axis)
            else zero_f);
       Torque_FF :=
         double_to_float
           (if torque_input_enabled_ axis
            then torque_setpoint_ axis / transmission_ratio_ axis
            else zero_f) |}.
Proof.
  intro H. unfold write_pos_msg. rewrite H.
  now rewrite !int_to_bool_neg_bool.
Qed.

Lemma write_vel_msg_reversed (axis : Axis) :
  reverse_axis_ axis = true ->
  write_vel_msg axis =
    {| Input_Vel :=
         double_to_float
           ((- vel_setpoint_ axis)
            / (two * M_PI * transmission_ratio_ axis));
       Input_Torque_FF :=
         double_to_float
           (if torque_input_enabled_ axis
            then torque_setpoint_ axis / transmission_ratio_ axis
            else zero_f) |}.
Proof.
  intro H. unfold write_vel_msg. rewrite H.
  now rewrite int_to_bool_neg_bool.
Qed.

Lemma write_cons (axis : Axis) (axes : list Axis) :
  write (axis :: axes) = write_axis axis ++ write axes.
Proof. reflexivity. Qed.

Lemma write_app (front back : list Axis) :
  write (front ++ back) = write front ++ write back.
Proof. unfold write. now rewrite flat_map_app. Qed.

(** C1, evaluated where it fails: on the axis {address 5, gear ratio 2,
    not reversed} with the position channel enabled and setpoint pi, the
    write cycle sends to node 5 one Set_Input_Pos message whose Input_Pos
    is +0.25, not -0.25: [write] negates the setpoint of a reversed axis
    only.  [read] negates on the other direction: a drive that reports
    these 0.25 turns is read back on the same axis as -pi rad, so the
    setpoint pi comes back with its sign changed. *)
Theorem write_input_pos_not_negated :
  pos_input_enabled_ axis_pos_pi = true /\
  reverse_axis_ axis_pos_pi = false /\
  transmission_ratio_ axis_pos_pi = 2 /\
  pos_setpoint_ axis_pos_pi = M_PI /\
  write_axis axis_pos_pi =
    [ {| sent_node_id := 5;
         sent_msg :=
           Set_Input_Pos
             {| Input_Pos := 0.25; Vel_FF := 0; Torque_FF := 0 |} |} ] /\
  Input_Pos (write_pos_msg axis_pos_pi) <> -0.25 /\
  Pos_Estimate
    (Get_Encoder_Estimates_decode_buf (data encoder_frame_quarter_turn))
    = Input_Pos (write_pos_msg axis_pos_pi) /\
  map pos_estimate_ (read [encoder_frame_quarter_turn] [axis_pos_pi])
    = [- M_PI].
Proof.
  repeat split; try reflexivity.
  vm_compute. exact quarter_not_minus_quarter.
Qed.

(** C2, evaluated where it fails: on a reversed axis (address 5, gear
    ratio 1) with all three channels enabled and setpoints of one turn, one
    turn per second and 1 Nm, the primary Input_Pos is negated (-1) but both
    feed-forward terms are sent without the sign (+1 and +1). *)
Theorem write_feedforward_reversed_keeps_sign :
  reverse_axis_ axis_reversed_ff = true /\
  pos_input_enabled_ axis_reversed_ff = true /\
  vel_input_enabled_ axis_reversed_ff = true /\
  torque_input_enabled_ axis_reversed_ff = true /\
  write_axis axis_reversed_ff =
    [Axis_send axis_reversed_ff
       (Set_Input_Pos
          {| Input_Pos := -1; Vel_FF := 1; Torque_FF := 1 |})] /\
  Vel_FF (write_pos_msg axis_reversed_ff) =
    vel_setpoint_ axis_reversed_ff
    / (two * M_PI * transmission_ratio_ axis_reversed_ff) /\
  Torque_FF (write_pos_msg axis_reversed_ff) =
    torque_setpoint_ axis_reversed_ff / transmission_ratio_ axis_reversed_ff.
Proof. repeat split; reflexivity. Qed.

(** C3: for each of the eight combinations of the enabled flags, the write
    cycle sends for an axis exactly one setpoint message, of the kind given
    by the priority position > velocity > torque, and nothing when no
    channel is enabled; in a cycle over several axes each axis contributes
    exactly its own frames, in axis order. *)
Theorem write_selects_one_by_priority :
  forall axis : Axis,
    map sender_and_kind (write_axis axis) =
      match pos_input_enabled_ axis, vel_input_enabled_ axis,
            torque_input_enabled_ axis with
      | true, _, _ => [(node_id_ axis, KInputPos)]
      | false, true, _ => [(node_id_ axis, KInputVel)]
      | false, false, true => [(node_id_ axis, KInputTorque)]
      | false, false, false => []
      end /\
    List.length (write_axis axis) =
      (if pos_input_enabled_ axis || vel_input_enabled_ axis
          || torque_input_enabled_ axis
       then 1%nat else 0%nat) /\
    forall front back : list Axis,
      write (front ++ axis :: back) =
        write front ++ write_axis axis ++ write back.
Proof.
  intro axis. split; [|split].
  - unfold write_axis.
    destruct (pos_input_enabled_ axis), (vel_input_enabled_ axis),
      (torque_input_enabled_ axis); reflexivity.
  - unfold write_axis.
    destruct (pos_input_enabled_ axis), (vel_input_enabled_ axis),
      (torque_input_enabled_ axis); reflexivity.
  - intros front back. now rewrite write_app, write_cons.
Qed.

End WritePath.

(** ** The mode switch *)

Section ModeSwitch.
Local Open Scope float_scope.

Lemma set_axis_command_mode_inactive (axis : Axis) :
  set_axis_command_mode false axis = (axis, [Axis_send axis idle_request]).
Proof. reflexivity. Qed.

Lemma for_each_axis_inactive (axes : list Axis) :
  for_each_axis (set_axis_command_mode false) axes =
    (axes, map (fun axis => Axis_send axis idle_request) axes).
Proof.
  induction axes as [|axis rest IH]; [reflexivity|].
  cbn [for_each_axis map]. rewrite set_axis_command_mode_inactive, IH.
  reflexivity.
Qed.

(** C7: with the active flag false, the mode-switch evaluation of an axis
    leaves the axis as it is and sends exactly one frame, the request for
    the idle state, whatever the enabled flags are; deactivating the
    interface sends exactly one such request per axis and nothing else. *)
Theorem inactive_sends_one_idle_request :
  (forall axis : Axis,
     set_axis_command_mode false axis =
       (axis,
        [ {| sent_node_id := node_id_ axis;
             sent_msg :=
               Set_Axis_State
                 {| Axis_Requested_State := AXIS_STATE_IDLE |} |} ]))
  /\
  (forall hw : ODriveHardwareInterface,
     on_deactivate hw =
       ({| active_ := false; axes_ := axes_ hw; joints_ := joints_ hw |},
        map (fun axis =>
               {| sent_node_id := node_id_ axis;
                  sent_msg :=
                    Set_Axis_State
                      {| Axis_Requested_State := AXIS_STATE_IDLE |} |})
            (axes_ hw))).
Proof.
  split.
  - intro axis. reflexivity.
  - intro hw. unfold on_deactivate.
    rewrite for_each_axis_inactive. reflexivity.
Qed.

(** C8: with the active flag true and the position channel of an axis
    enabled, whatever the velocity and torque flags are, the mode-switch
    evaluation sets the position setpoint to the current position estimate,
    sets the velocity and torque setpoints to zero, changes nothing else,
    and sends exactly three frames from that axis, in this order:
    controller mode = position control, clear errors, request closed-loop
    control. *)
Theorem active_position_seeds_and_requests_closed_loop (axis : Axis) :
  pos_input_enabled_ axis = true ->
  exists axis' : Axis,
    set_axis_command_mode true axis =
      (axis',
       [ {| sent_node_id := node_id_ axis;
            sent_msg :=
              Set_Controller_Mode
                {| Control_Mode := CONTROL_MODE_POSITION_CONTROL;
                   Input_Mode := INPUT_MODE_PASSTHROUGH |} |};
         {| sent_node_id := node_id_ axis;
            sent_msg := Clear_Errors {| Identify := 0 |} |};
         {| sent_node_id := node_id_ axis;
            sent_msg :=
              Set_Axis_State
                {| Axis_Requested_State :=
                     AXIS_STATE_CLOSED_LOOP_CONTROL |} |} ]) /\
    axis' = set_setpoints axis (pos_estimate_ axis) 0 0 /\
    pos_setpoint_ axis' = pos_estimate_ axis /\
    vel_setpoint_ axis' = 0 /\
    torque_setpoint_ axis' = 0.
Proof.
  intro Hpos.
  exists (set_setpoints axis (pos_estimate_ axis) 0 0).
  unfold set_axis_command_mode, select_control_mode.
  rewrite Hpos. cbn. repeat split.
Qed.

Lemma active_position_seeds_and_requests_closed_loop_witness :
  exists axis' : Axis,
    set_axis_command_mode true axis_all_enabled =
      (axis',
       [ {| sent_node_id := node_id_ axis_all_enabled;
            sent_msg :=
              Set_Controller_Mode
                {| Control_Mode := CONTROL_MODE_POSITION_CONTROL;
                   Input_Mode := INPUT_MODE_PASSTHROUGH |} |};
         {| sent_node_id := node_id_ axis_all_enabled;
            sent_msg := Clear_Errors {| Identify := 0 |} |};
         {| sent_node_id := node_id_ axis_all_enabled;
            sent_msg :=
              Set_Axis_State
                {| Axis_Requested_State :=
                     AXIS_STATE_CLOSED_LOOP_CONTROL |} |} ]) /\
    axis' = set_setpoints axis_all_enabled
              (pos_estimate_ axis_all_enabled) 0 0 /\
    pos_setpoint_ axis' = pos_estimate_ axis_all_enabled /\
    vel_setpoint_ axis' = 0 /\
    torque_setpoint_ axis' = 0.
Proof.
  apply (active_position_seeds_and_requests_closed_loop axis_all_enabled).
  reflexivity.
Defined.

(** On the sample axis the stale setpoints 7, 8, 9 become 1.5, 0, 0. *)
Example mode_switch_all_enabled :
  let axis' := fst (set_axis_command_mode true axis_all_enabled) in
  (pos_setpoint_ axis_all_enabled, pos_setpoint_ axis',
   vel_setpoint_ axis', torque_setpoint_ axis') = (7, 1.5, 0, 0).
Proof. reflexivity. Qed.

End ModeSwitch.

(** ** Inbound frames and the read cycle *)

Section InboundProperties.
Context {codec : CanSimpleMessages}.
Local Open Scope float_scope.

(** The paths through [Axis::on_can_msg]: each of the two known commands,
    too short or decoded, and any other command. *)
Ltac decode_cases :=
  unfold Axis_on_can_msg, try_decode; cbv zeta;
  destruct (_ =? Get_Encoder_Estimates_cmd_id)%Z;
  [|destruct (_ =? Get_Torques_cmd_id)%Z];
  try destruct (_ <? _)%Z.

(** What decoding never touches. *)
Lemma Axis_on_can_msg_config (axis : Axis) (frame : can_frame) :
  node_id_ (Axis_on_can_msg axis frame) = node_id_ axis /\
  transmission_ratio_ (Axis_on_can_msg axis frame) = transmission_ratio_ axis /\
  reverse_axis_ (Axis_on_can_msg axis frame) = reverse_axis_ axis.
Proof.
  decode_cases; cbn; auto.
Qed.

(** The length test of [try_decode]. *)
Lemma Axis_on_can_msg_short (axis : Axis) (frame : can_frame) :
  (can_dlc frame < Get_Encoder_Estimates_msg_length)%Z ->
  Axis_on_can_msg axis frame = axis.
Proof.
  intro Hlen. apply Z.ltb_lt in Hlen.
  unfold Axis_on_can_msg, try_decode. cbv zeta. rewrite Hlen.
  destruct (_ =? Get_Encoder_Estimates_cmd_id)%Z;
    [|destruct (_ =? Get_Torques_cmd_id)%Z]; reflexivity.
Qed.

Lemma on_can_msg_nth (axes : list Axis) (frame : can_frame)
    (i : nat) (axis : Axis) :
  nth_error axes i = Some axis ->
  nth_error (on_can_msg axes frame) i =
    Some (if addressed_to frame axis then Axis_on_can_msg axis frame
          else axis).
Proof.
  intro H. unfold on_can_msg. rewrite nth_error_map, H. reflexivity.
Qed.

Lemma on_can_msg_node_ids (axes : list Axis) (frame : can_frame) :
  map node_id_ (on_can_msg axes frame) = map node_id_ axes.
Proof.
  unfold on_can_msg. rewrite map_map. apply map_ext. intro axis.
  destruct (addressed_to frame axis); [|reflexivity].
  apply Axis_on_can_msg_config.
Qed.

Lemma drain_node_ids (pending : list can_frame) (axes : list Axis) :
  map node_id_ (fold_left on_can_msg pending axes) = map node_id_ axes.
Proof.
  revert axes. induction pending as [|frame rest IH]; intro axes; cbn.
  - reflexivity.
  - now rewrite IH, on_can_msg_node_ids.
Qed.

Lemma on_can_msg_unaddressed (axes : list Axis) (frame : can_frame) :
  (forall axis, In axis axes ->
     Z.shiftr (can_id frame) 5 <> node_id_ axis) ->
  on_can_msg axes frame = axes.
Proof.
  intro H. unfold on_can_msg.
  rewrite <- (map_id axes) at 2. apply map_ext_in. intros axis Hin.
  unfold addressed_to.
  destruct (Z.eqb_spec (Z.shiftr (can_id frame) 5) (node_id_ axis)) as [E|E].
  - now apply H in Hin.
  - reflexivity.
Qed.

(** An axis to which no pending frame is addressed comes out of the drain
    loop as it went in. *)
Lemma drain_unaddressed (pending : list can_frame) :
  forall (axes : list Axis) (i : nat) (axis : Axis),
    nth_error axes i = Some axis ->
    Forall (fun frame => addressed_to frame axis = false) pending ->
    nth_error (fold_left on_can_msg pending axes) i = Some axis.
Proof.
  induction pending as [|frame rest IH]; intros axes i axis Hi Hall; cbn.
  - exact Hi.
  - inversion Hall as [|? ? Hframe Hrest]; subst.
    apply IH; [|exact Hrest].
    rewrite (on_can_msg_nth axes frame i axis Hi), Hframe. reflexivity.
Qed.

Lemma read_nth (pending : list can_frame) (axes : list Axis)
    (i : nat) (axis : Axis) :
  nth_error (fold_left on_can_msg pending axes) i = Some axis ->
  nth_error (read pending axes) i = Some (read_convert axis).
Proof.
  intro H. unfold read. rewrite nth_error_map, H. reflexivity.
Qed.

Lemma read_convert_estimates (axis : Axis) :
  pos_estimate_ (read_convert axis) = pos_estimate_ axis * read_factor axis /\
  vel_estimate_ (read_convert axis) = vel_estimate_ axis * read_factor axis /\
  torque_estimate_ (read_convert axis)
    = torque_estimate_ axis * read_factor axis.
Proof.
  unfold read_convert, read_factor.
  destruct (reverse_axis_ axis); cbn; auto.
Qed.

Lemma read_convert_config (axis : Axis) :
  node_id_ (read_convert axis) = node_id_ axis /\
  transmission_ratio_ (read_convert axis) = transmission_ratio_ axis /\
  reverse_axis_ (read_convert axis) = reverse_axis_ axis.
Proof.
  unfold read_convert. destruct (reverse_axis_ axis) eqn:E; cbn; auto.
Qed.

Lemma addressed_to_read_convert (frame : can_frame) (axis : Axis) :
  addressed_to frame (read_convert axis) = addressed_to frame axis.
Proof.
  unfold addressed_to.
  now destruct (read_convert_config axis) as [-> _].
Qed.

(** Neither decoding nor the conversion of [read] writes anything that
    [write] reads. *)
Lemma Axis_on_can_msg_inputs (axis : Axis) (frame : can_frame) :
  Axis_inputs (Axis_on_can_msg axis frame) = Axis_inputs axis.
Proof.
  decode_cases; reflexivity.
Qed.

Lemma read_convert_inputs (axis : Axis) :
  Axis_inputs (read_convert axis) = Axis_inputs axis.
Proof.
  unfold read_convert, Axis_inputs.
  destruct (reverse_axis_ axis) eqn:E; cbn; now rewrite E.
Qed.

Lemma on_can_msg_inputs (axes : list Axis) (frame : can_frame) :
  map Axis_inputs (on_can_msg axes frame) = map Axis_inputs axes.
Proof.
  unfold on_can_msg. rewrite map_map. apply map_ext. intro axis.
  destruct (addressed_to frame axis); [|reflexivity].
  apply Axis_on_can_msg_inputs.
Qed.

Lemma read_inputs (pending : list can_frame) (axes : list Axis) :
  map Axis_inputs (read pending axes) = map Axis_inputs axes.
Proof.
  unfold read. rewrite map_map.
  rewrite (map_ext _ Axis_inputs read_convert_inputs).
  revert axes. induction pending as [|frame rest IH]; intro axes; cbn.
  - reflexivity.
  - now rewrite IH, on_can_msg_inputs.
Qed.

Lemma read_cycles_inputs (cycles : list (list can_frame)) :
  forall axes : list Axis,
    map Axis_inputs (read_cycles cycles axes) = map Axis_inputs axes.
Proof.
  unfold read_cycles.
  induction cycles as [|pending rest IH]; intro axes; cbn.
  - reflexivity.
  - now rewrite IH, read_inputs.
Qed.

Lemma write_axis_inputs (a b : Axis) :
  Axis_inputs a = Axis_inputs b -> write_axis a = write_axis b.
Proof.
  destruct a, b. unfold Axis_inputs. cbn. intro H.
  injection H as -> -> -> -> -> -> -> -> ->. reflexivity.
Qed.

Lemma write_inputs (axes : list Axis) :
  forall axes' : list Axis,
    map Axis_inputs axes = map Axis_inputs axes' ->
    write axes = write axes'.
Proof.
  induction axes as [|a rest IH]; intros [|b rest'] H; try discriminate H.
  - reflexivity.
  - cbn [map] in H.
    assert (Hab : Axis_inputs a = Axis_inputs b)
      by exact (f_equal (hd (Axis_inputs a)) H).
    assert (Hrest : map Axis_inputs rest = map Axis_inputs rest')
      by exact (f_equal (@tl _) H).
    rewrite !write_cons, (write_axis_inputs a b Hab), (IH rest' Hrest).
    reflexivity.
Qed.

(** The frames of a write cycle do not depend on the read cycles that ran
    since the setpoints and flags were last written. *)
Lemma write_after_read_cycles (cycles : list (list can_frame))
    (axes : list Axis) :
  write (read_cycles cycles axes) = write axes.
Proof. apply write_inputs, read_cycles_inputs. Qed.

Lemma Forall2_map_same {A B : Type} (R : A -> B -> Prop) (f : A -> B)
    (l : list A) :
  (forall x, R x (f x)) -> Forall2 R l (map f l).
Proof.
  intro H. induction l as [|x l IH]; cbn; constructor; auto.
Qed.

(** C4: a read cycle multiplies the position, velocity and torque estimate
    of every axis, as they stand after the pending frames were decoded, by
    -gear_ratio when the axis is not reversed and by +gear_ratio when it is;
    an encoder frame with Pos_Estimate = 0.5 for a non-reversed axis of gear
    ratio 3 gives pos_estimate = 0.5 x 2 pi x (-3) = -3 pi. *)
Theorem read_multiplies_estimates_by_signed_gear_ratio :
  (forall (pending : list can_frame) (axes : list Axis),
     Forall2
       (fun decoded converted : Axis =>
          let k := if reverse_axis_ decoded
                   then transmission_ratio_ decoded
                   else - transmission_ratio_ decoded in
          pos_estimate_ converted = pos_estimate_ decoded * k /\
          vel_estimate_ converted = vel_estimate_ decoded * k /\
          torque_estimate_ converted = torque_estimate_ decoded * k)
       (fold_left on_can_msg pending axes) (read pending axes))
  /\
  (forall (axis : Axis) (frame : can_frame),
     Z.shiftr (can_id frame) 5 = node_id_ axis ->
     Z.land (can_id frame) 0x1f = Get_Encoder_Estimates_cmd_id ->
     (Get_Encoder_Estimates_msg_length <= can_dlc frame)%Z ->
     Pos_Estimate (Get_Encoder_Estimates_decode_buf (data frame)) = 0.5 ->
     reverse_axis_ axis = false ->
     transmission_ratio_ axis = 3 ->
     exists axis' : Axis,
       read [frame] [axis] = [axis'] /\
       pos_estimate_ axis' = 0.5 * (two * M_PI) * (-3) /\
       pos_estimate_ axis' = - (3 * M_PI)).
Proof.
  split.
  - intros pending axes. unfold read. apply Forall2_map_same.
    intro axis. apply (read_convert_estimates axis).
  - intros axis frame Haddr Hcmd Hlen Hpos Hrev Hg.
    eexists. split; [reflexivity|].
    assert (E : pos_estimate_
                  (read_convert
                     (if addressed_to frame axis
                      then Axis_on_can_msg axis frame else axis))
                = 0.5 * (two * M_PI) * (-3)).
    { unfold addressed_to. rewrite Haddr, Z.eqb_refl.
      destruct (read_convert_estimates (Axis_on_can_msg axis frame))
        as [-> _].
      unfold read_factor.
      destruct (Axis_on_can_msg_config axis frame) as (_ & -> & ->).
      rewrite Hrev, Hg.
      unfold Axis_on_can_msg, try_decode. cbv zeta.
      rewrite Hcmd, Z.eqb_refl.
      apply Z.ltb_ge in Hlen. rewrite Hlen. cbn.
      rewrite Hpos. reflexivity. }
    split; [exact E|]. rewrite E. reflexivity.
Qed.

Lemma encoder_frame_routed_and_converted (axis : Axis) (frame : can_frame) :
  Z.shiftr (can_id frame) 5 = node_id_ axis ->
  Z.land (can_id frame) 0x1f = Get_Encoder_Estimates_cmd_id ->
  (Get_Encoder_Estimates_msg_length <= can_dlc frame)%Z ->
  read [frame] [axis] =
    [read_convert
       (set_encoder_estimates axis
          (Pos_Estimate (Get_Encoder_Estimates_decode_buf (data frame))
           * (two * M_PI))
          (Vel_Estimate (Get_Encoder_Estimates_decode_buf (data frame))
           * (two * M_PI)))].
Proof.
  intros Haddr Hcmd Hlen. cbn. unfold addressed_to.
  rewrite Haddr, Z.eqb_refl. unfold Axis_on_can_msg, try_decode. cbv zeta.
  rewrite Hcmd, Z.eqb_refl. apply Z.ltb_ge in Hlen. now rewrite Hlen.
Qed.

(** C5, as amended: the conversion of a read cycle is applied to every
    axis, also to one to which no pending frame was addressed; such an axis
    leaves one cycle with each estimate multiplied once, and two
    consecutive such cycles with each estimate multiplied twice, by
    -gear_ratio (not reversed) or +gear_ratio (reversed). *)
Theorem read_converts_without_frames
    (pending1 pending2 : list can_frame) (axes : list Axis)
    (i : nat) (axis : Axis) :
  nth_error axes i = Some axis ->
  Forall (fun frame => Z.shiftr (can_id frame) 5 <> node_id_ axis)
    (pending1 ++ pending2) ->
  let k := if reverse_axis_ axis
           then transmission_ratio_ axis
           else - transmission_ratio_ axis in
  (exists once : Axis,
     nth_error (read pending1 axes) i = Some once /\
     pos_estimate_ once = pos_estimate_ axis * k /\
     vel_estimate_ once = vel_estimate_ axis * k /\
     torque_estimate_ once = torque_estimate_ axis * k) /\
  (exists twice : Axis,
     nth_error (read pending2 (read pending1 axes)) i = Some twice /\
     pos_estimate_ twice = pos_estimate_ axis * k * k /\
     vel_estimate_ twice = vel_estimate_ axis * k * k /\
     torque_estimate_ twice = torque_estimate_ axis * k * k).
Proof.
  intros Hi Hall k.
  assert (Hun : forall pending,
             Forall (fun frame => Z.shiftr (can_id frame) 5 <> node_id_ axis)
               pending ->
             Forall (fun frame => addressed_to frame axis = false) pending).
  { intros pending H. eapply Forall_impl; [|exact H].
    intros frame Hne. unfold addressed_to. now apply Z.eqb_neq. }
  apply Forall_app in Hall. destruct Hall as [H1 H2].
  apply Hun in H1. apply Hun in H2.
  assert (Honce : nth_error (read pending1 axes) i
                  = Some (read_convert axis)).
  { apply read_nth. now apply drain_unaddressed. }
  assert (Htwice : nth_error (read pending2 (read pending1 axes)) i
                   = Some (read_convert (read_convert axis))).
  { apply read_nth. apply drain_unaddressed; [exact Honce|].
    eapply Forall_impl; [|exact H2].
    intros frame Hf. now rewrite addressed_to_read_convert. }
  assert (Hk : read_factor axis = k) by reflexivity.
  assert (Hk' : read_factor (read_convert axis) = k).
  { unfold read_factor.
    now destruct (read_convert_config axis) as (_ & -> & ->). }
  destruct (read_convert_estimates axis) as (Ep & Ev & Et).
  destruct (read_convert_estimates (read_convert axis)) as (Ep' & Ev' & Et').
  rewrite Hk in Ep, Ev, Et.
  rewrite Hk', Ep in Ep'. rewrite Hk', Ev in Ev'. rewrite Hk', Et in Et'.
  split.
  - exists (read_convert axis). auto.
  - exists (read_convert (read_convert axis)). auto.
Qed.

(** C6: a frame whose command identifier selects a known message type and
    whose length is below the length that type requires leaves the axis
    that decodes it exactly as it was, and so the whole set of axes.
    [try_decode] compares with the length of the encoder message for every
    type, which covers the torque message when its length is not the
    larger one (both are 8 in the command set). *)
Theorem short_frame_changes_nothing
    (axis : Axis) (frame : can_frame) (len : Z) :
  (Get_Torques_msg_length <= Get_Encoder_Estimates_msg_length)%Z ->
  required_length (Z.land (can_id frame) 0x1f) = Some len ->
  (can_dlc frame < len)%Z ->
  Axis_on_can_msg axis frame = axis /\
  forall axes : list Axis, on_can_msg axes frame = axes.
Proof.
  intros Hle Hreq Hshort.
  assert (Hlen : (can_dlc frame < Get_Encoder_Estimates_msg_length)%Z).
  { unfold required_length in Hreq.
    destruct (_ =? Get_Encoder_Estimates_cmd_id)%Z;
      [|destruct (_ =? Get_Torques_cmd_id)%Z];
      inversion Hreq; subst; lia. }
  split.
  - now apply Axis_on_can_msg_short.
  - intro axes. unfold on_can_msg.
    rewrite <- (map_id axes) at 2. apply map_ext. intro a.
    destruct (addressed_to frame a); [|reflexivity].
    now apply Axis_on_can_msg_short.
Qed.

(** C9: a frame reaches the decoder of an axis exactly when its
    arbitration id shifted right by 5 bits is the node id of that axis,
    every other axis is left as it was; a frame that matches no axis
    changes no axis, and dropping it from the pending frames of a read
    cycle does not change the outcome of the cycle. *)
Theorem frame_routed_by_node_id (axes : list Axis) (frame : can_frame) :
  (forall (i : nat) (axis : Axis),
     nth_error axes i = Some axis ->
     nth_error (on_can_msg axes frame) i =
       Some (if (Z.shiftr (can_id frame) 5 =? node_id_ axis)%Z
             then Axis_on_can_msg axis frame
             else axis)) /\
  ((forall axis, In axis axes ->
      Z.shiftr (can_id frame) 5 <> node_id_ axis) ->
   on_can_msg axes frame = axes /\
   forall before after : list can_frame,
     read (before ++ frame :: after) axes = read (before ++ after) axes).
Proof.
  split.
  - intros i axis Hi. exact (on_can_msg_nth axes frame i axis Hi).
  - intro Hno. split; [now apply on_can_msg_unaddressed|].
    intros before after. unfold read.
    rewrite !fold_left_app. cbn [fold_left].
    rewrite on_can_msg_unaddressed; [reflexivity|].
    intros axis Hin E.
    assert (Hid : In (node_id_ axis) (map node_id_ axes)).
    { rewrite <- (drain_node_ids before axes). now apply in_map. }
    apply in_map_iff in Hid. destruct Hid as (axis0 & Hid0 & Hin0).
    apply (Hno axis0 Hin0). congruence.
Qed.

End InboundProperties.

(** ** The unknown position estimate *)

Section UnknownEstimate.
Context {codec : CanSimpleMessages}.
Local Open Scope float_scope.

Lemma Axis_on_can_msg_keeps_pos_estimate (axis : Axis) (frame : can_frame) :
  decoded_as_encoder_estimates frame axis = false ->
  pos_estimate_ (if addressed_to frame axis
                 then Axis_on_can_msg axis frame else axis)
  = pos_estimate_ axis.
Proof.
  unfold decoded_as_encoder_estimates. intro H.
  destruct (addressed_to frame axis); [|reflexivity].
  unfold Axis_on_can_msg, try_decode. cbv zeta. cbn in H.
  destruct (_ =? Get_Encoder_Estimates_cmd_id)%Z.
  - cbn in H. apply negb_false_iff in H. now rewrite H.
  - destruct (_ =? Get_Torques_cmd_id)%Z; [|reflexivity].
    now destruct (_ <? _)%Z.
Qed.

Lemma decoded_as_encoder_estimates_node_id
    (frame : can_frame) (axis axis' : Axis) :
  node_id_ axis' = node_id_ axis ->
  decoded_as_encoder_estimates frame axis'
  = decoded_as_encoder_estimates frame axis.
Proof.
  intro H. unfold decoded_as_encoder_estimates, addressed_to. now rewrite H.
Qed.

Lemma drain_keeps_unknown (a0 : Axis) (pending : list can_frame) :
  Forall (fun frame => decoded_as_encoder_estimates frame a0 = false)
    pending ->
  forall axes : list Axis,
    still_unknown a0 axes ->
    still_unknown a0 (fold_left on_can_msg pending axes).
Proof.
  induction 1 as [|frame rest Hframe _ IH]; intros axes Hinv; cbn.
  - exact Hinv.
  - apply IH. destruct Hinv as (a & -> & Hid & Hg & Hrev & Hnan). cbn.
    eexists. split; [reflexivity|].
    rewrite <- (decoded_as_encoder_estimates_node_id frame a0 a Hid) in Hframe.
    rewrite (Axis_on_can_msg_keeps_pos_estimate a frame Hframe).
    destruct (addressed_to frame a); auto.
    destruct (Axis_on_can_msg_config a frame) as (-> & -> & ->). auto.
Qed.

Lemma read_keeps_unknown (a0 : Axis) (pending : list can_frame)
    (axes : list Axis) :
  Forall (fun frame => decoded_as_encoder_estimates frame a0 = false)
    pending ->
  still_unknown a0 axes ->
  still_unknown a0 (read pending axes).
Proof.
  intros Hp Hinv.
  destruct (drain_keeps_unknown a0 pending Hp axes Hinv) as (a & E & Hid & Hg & Hrev & Hnan).
  unfold read. rewrite E. cbn. eexists. split; [reflexivity|].
  destruct (read_convert_config a) as (-> & -> & ->).
  repeat split; auto.
  destruct (read_convert_estimates a) as (-> & _).
  rewrite Hnan. apply nan_mul.
Qed.

Lemma read_cycles_keep_unknown (a0 : Axis)
    (cycles : list (list can_frame)) :
  Forall (Forall (fun frame => decoded_as_encoder_estimates frame a0 = false))
    cycles ->
  forall axes : list Axis,
    still_unknown a0 axes ->
    still_unknown a0 (read_cycles cycles axes).
Proof.
  unfold read_cycles.
  induction 1 as [|pending rest Hp _ IH]; intros axes Hinv; cbn.
  - exact Hinv.
  - apply IH. now apply read_keeps_unknown.
Qed.

Lemma write_nan_setpoint (axis : Axis) :
  pos_input_enabled_ axis = true ->
  pos_setpoint_ axis = NAN ->
  Input_Pos (write_pos_msg axis) = NAN.
Proof.
  intros _ Hnan. unfold write_pos_msg.
  destruct (reverse_axis_ axis); cbn; rewrite Hnan; unfold NAN.
  - rewrite opp_nan, nan_div. reflexivity.
  - rewrite nan_div. reflexivity.
Qed.

(** C10: take an axis as constructed (position estimate NaN) and any run
    of read cycles in which no encoder-estimates frame is decoded for it.
    When its position channel is then enabled and the mode switch is
    evaluated with the interface active, the position setpoint becomes NaN;
    from then on, after any further read cycles, the write cycle sends a
    Set_Input_Pos message whose Input_Pos is NaN, for every gear ratio and
    either direction. *)
Theorem unknown_estimate_is_sent_as_setpoint
    (node_id : Z) (transmission_ratio : float) (reverse_axis : bool)
    (cycles : list (list can_frame)) (vel_enabled torque_enabled : bool) :
  Forall
    (Forall
       (fun frame =>
          decoded_as_encoder_estimates frame
            (Axis_new node_id transmission_ratio reverse_axis) = false))
    cycles ->
  exists axis : Axis,
    read_cycles cycles [Axis_new node_id transmission_ratio reverse_axis]
      = [axis] /\
    pos_estimate_ axis = NAN /\
    exists (axis' : Axis) (out : list sent_frame),
      set_axis_command_mode true
        (set_inputs_enabled axis true vel_enabled torque_enabled)
        = (axis', out) /\
      pos_setpoint_ axis' = NAN /\
      forall later : list (list can_frame),
      exists msg : Set_Input_Pos_msg_t,
        write (read_cycles later [axis'])
          = [ {| sent_node_id := node_id; sent_msg := Set_Input_Pos msg |} ]
        /\ Input_Pos msg = NAN.
Proof.
  intro Hcycles.
  destruct (read_cycles_keep_unknown
              (Axis_new node_id transmission_ratio reverse_axis) cycles
              Hcycles [Axis_new node_id transmission_ratio reverse_axis])
    as (axis & E & Hid & _ & _ & Hnan).
  { eexists. repeat split; reflexivity. }
  exists axis. split; [exact E|]. split; [exact Hnan|].
  set (enabled := set_inputs_enabled axis true vel_enabled torque_enabled).
  set (seeded := set_setpoints enabled (pos_estimate_ enabled) zero_f zero_f).
  exists seeded. eexists.
  split; [reflexivity|].
  split; [exact Hnan|].
  intro later. exists (write_pos_msg seeded).
  rewrite write_after_read_cycles.
  split.
  - cbn in Hid. cbn. unfold Axis_send.
    change (node_id_ seeded) with (node_id_ axis). now rewrite Hid.
  - apply write_nan_setpoint; [reflexivity|exact Hnan].
Qed.

End UnknownEstimate.

(** ** The properties on the sample axes and frames *)

Section Samples.
Local Open Scope float_scope.

Lemma read_multiplies_estimates_by_signed_gear_ratio_witness :
  exists axis' : Axis,
    read [encoder_frame_half_turn] [axis_gear3] = [axis'] /\
    pos_estimate_ axis' = 0.5 * (two * M_PI) * (-3) /\
    pos_estimate_ axis' = - (3 * M_PI).
Proof.
  apply (proj2 (@read_multiplies_estimates_by_signed_gear_ratio
                  odrive_can_simple)
           axis_gear3 encoder_frame_half_turn);
    reflexivity.
Defined.

(** The frame of the scenario, decoded and converted. *)
Example read_half_turn_gear3 :
  map pos_estimate_ (read [encoder_frame_half_turn] [axis_gear3])
  = [-0x1.2d97c7f3321d2p+3].
Proof. reflexivity. Qed.

Lemma read_converts_without_frames_witness :
  let k := - transmission_ratio_ axis_gear2 in
  (exists once : Axis,
     nth_error (read [encoder_frame_other_node] [axis_gear2]) 0 = Some once /\
     pos_estimate_ once = pos_estimate_ axis_gear2 * k /\
     vel_estimate_ once = vel_estimate_ axis_gear2 * k /\
     torque_estimate_ once = torque_estimate_ axis_gear2 * k) /\
  (exists twice : Axis,
     nth_error (read [] (read [encoder_frame_other_node] [axis_gear2])) 0
       = Some twice /\
     pos_estimate_ twice = pos_estimate_ axis_gear2 * k * k /\
     vel_estimate_ twice = vel_estimate_ axis_gear2 * k * k /\
     torque_estimate_ twice = torque_estimate_ axis_gear2 * k * k).
Proof.
  apply (@read_converts_without_frames odrive_can_simple
           [encoder_frame_other_node] [] [axis_gear2] 0%nat axis_gear2).
  - reflexivity.
  - repeat constructor. discriminate.
Defined.

(** With gear ratio 2 the estimates 1, 2, 3 become 4, 8, 12 in two read
    cycles that bring no frame for the axis. *)
Example read_twice_gear2 :
  map (fun a => (pos_estimate_ a, vel_estimate_ a, torque_estimate_ a))
    (read [] (read [encoder_frame_other_node] [axis_gear2]))
  = [(4, 8, 12)].
Proof. reflexivity. Qed.

(** C5, as stated, fails: the axis {gear ratio 1, not reversed} with the
    estimates 1, 2, 3 is not reversed, and after two consecutive read
    cycles without any frame its estimates are again 1, 2, 3: the two
    changes of sign cancel. *)
Lemma read_twice_unit_gear_unchanged :
  reverse_axis_ axis_unit_gear = false /\
  read [] [axis_unit_gear] <> [axis_unit_gear] /\
  read [] (read [] [axis_unit_gear]) = [axis_unit_gear].
Proof.
  split; [reflexivity|]. split; [|reflexivity].
  intro H.
  assert (E : map (fun a => (pos_estimate_ a <? 0))
                (read [] [axis_unit_gear])
              = map (fun a => (pos_estimate_ a <? 0)) [axis_unit_gear])
    by now rewrite H.
  vm_compute in E. discriminate E.
Qed.

Lemma short_frame_changes_nothing_witness :
  Axis_on_can_msg axis_gear2 encoder_frame_truncated = axis_gear2 /\
  forall axes : list Axis, on_can_msg axes encoder_frame_truncated = axes.
Proof.
  apply (@short_frame_changes_nothing odrive_can_simple
           axis_gear2 encoder_frame_truncated 8%Z).
  - apply Z.le_refl.
  - reflexivity.
  - reflexivity.
Defined.

(** The complete frame does change the axis it is addressed to. *)
Example full_frame_is_decoded :
  pos_estimate_ (Axis_on_can_msg axis_gear2 encoder_frame_half_turn)
  = 0.5 * (two * M_PI).
Proof. reflexivity. Qed.

(** A frame of node 7 is not handed to the axis of node 5, the frame of
    node 5 is. *)
Example routing_by_node_id :
  on_can_msg [axis_gear2] encoder_frame_other_node = [axis_gear2] /\
  on_can_msg [axis_gear2] encoder_frame_half_turn
    = [Axis_on_can_msg axis_gear2 encoder_frame_half_turn].
Proof. split; reflexivity. Qed.

Lemma unknown_estimate_is_sent_as_setpoint_witness :
  exists axis : Axis,
    read_cycles [[encoder_frame_other_node]; [encoder_frame_truncated]; []]
      [Axis_new 5 2 false] = [axis] /\
    pos_estimate_ axis = NAN /\
    exists (axis' : Axis) (out : list sent_frame),
      set_axis_command_mode true (set_inputs_enabled axis true true false)
        = (axis', out) /\
      pos_setpoint_ axis' = NAN /\
      forall later : list (list can_frame),
      exists msg : Set_Input_Pos_msg_t,
        write (read_cycles later [axis'])
          = [ {| sent_node_id := 5; sent_msg := Set_Input_Pos msg |} ]
        /\ Input_Pos msg = NAN.
Proof.
  apply (@unknown_estimate_is_sent_as_setpoint odrive_can_simple
           5%Z 2 false
           [[encoder_frame_other_node]; [encoder_frame_truncated]; []]
           true false).
  repeat constructor.
Defined.

(** The same through the interface: activate, read once with nothing
    pending, start the position interface of the joint, write. *)
Example fresh_axis_position_mode_sends_nan :
  let hw1 := fst (on_activate hw_fresh) in
  let hw2 := {| active_ := active_ hw1;
                axes_ := read [] (axes_ hw1);
                joints_ := joints_ hw1 |} in
  let hw3 :=
    fst (perform_command_mode_switch ["joint1/position"%string] [] hw2) in
  map pos_setpoint_ (axes_ hw3) = [NAN] /\
  write (axes_ hw3) =
    [ {| sent_node_id := 5;
         sent_msg :=
           Set_Input_Pos
             {| Input_Pos := NAN; Vel_FF := 0; Torque_FF := 0 |} |} ].
Proof. split; reflexivity. Qed.

(** Starting an interface while the interface is active sends the three
    mode-switch frames; stopping it again sends the idle request. *)
Example start_then_stop_velocity :
  let hw1 := fst (on_activate hw_fresh) in
  let r2 := perform_command_mode_switch ["joint1/velocity"%string] [] hw1 in
  let r3 := perform_command_mode_switch [] ["joint1/velocity"%string]
              (fst r2) in
  map sender_and_kind (snd r2)
    = [(5%Z, KControllerMode); (5%Z, KClearErrors); (5%Z, KAxisState)] /\
  map sent_msg (snd r3) = [idle_request].
Proof. split; reflexivity. Qed.

End Samples.

(** * Further properties *)

(** ** The arbitration id of a sent frame *)

Section ArbitrationId.
Local Open Scope Z_scope.

Lemma uint32_shiftl5 (node_id : Z) :
  uint32 (Z.shiftl node_id 5) = (node_id mod 2 ^ 27) * 2 ^ 5.
Proof.
  unfold uint32. rewrite Z.shiftl_mul_pow2 by lia.
  change (2 ^ 32) with (2 ^ 27 * 2 ^ 5).
  rewrite Z.mul_mod_distr_r by lia. reflexivity.
Qed.

(** X1: the id that [Axis::send] builds carries the command id in its low
    five bits and the node id, reduced modulo 2^27 by the 32-bit shift, in
    the bits above; so [on_can_msg] hands a frame with that id to exactly
    the axes whose node id is the sender's modulo 2^27, and a node id below
    2^27 comes back as it was. *)
Theorem send_can_id_routes_back (node_id cmd_id : Z) :
  0 <= node_id ->
  0 <= cmd_id < 32 ->
  Z.shiftr (Axis_send_can_id node_id cmd_id) 5 = node_id mod 2 ^ 27 /\
  Z.land (Axis_send_can_id node_id cmd_id) 0x1f = cmd_id /\
  (forall (frame : can_frame) (axis : Axis),
     can_id frame = Axis_send_can_id node_id cmd_id ->
     addressed_to frame axis = (node_id mod 2 ^ 27 =? node_id_ axis)) /\
  (node_id < 2 ^ 27 ->
   Z.shiftr (Axis_send_can_id node_id cmd_id) 5 = node_id).
Proof.
  intros Hnode Hcmd.
  assert (Hhi : Z.shiftr (Axis_send_can_id node_id cmd_id) 5
                = node_id mod 2 ^ 27).
  { unfold Axis_send_can_id. rewrite Z.shiftr_lor, uint32_shiftl5.
    rewrite !Z.shiftr_div_pow2 by lia.
    rewrite Z.div_mul by lia.
    rewrite (Z.div_small cmd_id) by lia.
    apply Z.lor_0_r. }
  split; [exact Hhi|]. split; [|split].
  - unfold Axis_send_can_id. change 0x1f with (Z.ones 5).
    rewrite Z.land_lor_distr_l, uint32_shiftl5.
    rewrite !Z.land_ones by lia.
    rewrite Z.mod_mul by lia.
    rewrite (Z.mod_small cmd_id) by lia.
    apply Z.lor_0_l.
  - intros frame axis Hid. unfold addressed_to. now rewrite Hid, Hhi.
  - intro Hsmall. rewrite Hhi. apply Z.mod_small. lia.
Qed.

Lemma send_can_id_routes_back_witness :
  Z.shiftr (Axis_send_can_id 5 0x0c) 5 = 5 /\
  Z.land (Axis_send_can_id 5 0x0c) 0x1f = 0x0c.
Proof.
  destruct (send_can_id_routes_back 5 0x0c) as (_ & Hlow & _ & Hback);
    [lia | lia |].
  split; [apply Hback; lia | exact Hlow].
Defined.

End ArbitrationId.

(** ** More on the write path *)

Section WritePathMore.
Local Open Scope float_scope.

(** X2: in the position and the velocity message the feed-forward terms do
    not depend on the direction of the axis: each is, narrowed to [float],
    the setpoint over the ratio when its channel is enabled and zero
    otherwise, reversed or not. *)
Theorem feedforward_ignores_reversal (axis : Axis) :
  Vel_FF (write_pos_msg axis) =
    double_to_float
      (if vel_input_enabled_ axis
       then vel_setpoint_ axis / (two * M_PI * transmission_ratio_ axis)
       else 0) /\
  Torque_FF (write_pos_msg axis) =
    double_to_float
      (if torque_input_enabled_ axis
       then torque_setpoint_ axis / transmission_ratio_ axis
       else 0) /\
  Input_Torque_FF (write_vel_msg axis) =
    double_to_float
      (if torque_input_enabled_ axis
       then torque_setpoint_ axis / transmission_ratio_ axis
       else 0).
Proof.
  unfold write_pos_msg, write_vel_msg.
  destruct (reverse_axis_ axis); cbn;
    rewrite ?int_to_bool_neg_bool; repeat split.
Qed.

(** On the reversed sample axis the quotient 1/(2 pi) is sent as the
    nearest [float], with the sign of the setpoint. *)
Example feedforward_is_narrowed :
  Vel_FF
    (write_pos_msg
       (set_setpoints axis_reversed_ff 0 1 0))
  = 0x1.45f306p-3.
Proof. reflexivity. Qed.

Lemma not_finite_narrowed (x : float) :
  not_finite x -> not_finite (double_to_float x).
Proof.
  unfold not_finite.
  intros [ -> | [ -> | -> ] ]; [left|right; left|right; right];
    reflexivity.
Qed.

Lemma div_by_zero_not_finite (x : float) : not_finite (x / 0).
Proof.
  unfold not_finite.
  rewrite <- (SF2Prim_Prim2SF (x / 0)), div_spec.
  change (Prim2SF 0) with (S754_zero false).
  destruct (Prim2SF x) as [s|s| |s m e]; cbn.
  - left. reflexivity.
  - right. destruct s; [right|left]; reflexivity.
  - left. reflexivity.
  - right. destruct s; [right|left]; reflexivity.
Qed.

(** X3: a transmission ratio of zero is not guarded against: whatever the
    setpoints and the direction, the primary value of each of the three
    setpoint messages is then an infinity or NaN. *)
Theorem zero_ratio_sends_no_finite_setpoint (axis : Axis) :
  transmission_ratio_ axis = 0 ->
  not_finite (Input_Pos (write_pos_msg axis)) /\
  not_finite (Input_Vel (write_vel_msg axis)) /\
  not_finite (Input_Torque (write_torque_msg axis)).
Proof.
  intro Hzero.
  unfold write_pos_msg, write_vel_msg, write_torque_msg. rewrite Hzero.
  change (two * M_PI * 0) with 0.
  destruct (reverse_axis_ axis); cbn; repeat split;
    apply not_finite_narrowed, div_by_zero_not_finite.
Qed.

Lemma zero_ratio_sends_no_finite_setpoint_witness :
  not_finite (Input_Pos (write_pos_msg axis_zero_ratio)) /\
  not_finite (Input_Vel (write_vel_msg axis_zero_ratio)) /\
  not_finite (Input_Torque (write_torque_msg axis_zero_ratio)).
Proof.
  apply (zero_ratio_sends_no_finite_setpoint axis_zero_ratio). reflexivity.
Defined.

(** With setpoints of 1 the three values are plus infinity. *)
Example zero_ratio_sends_infinity :
  write_axis axis_zero_ratio =
    [Axis_send axis_zero_ratio
       (Set_Input_Pos {| Input_Pos := infinity; Vel_FF := infinity;
                         Torque_FF := infinity |})].
Proof. reflexivity. Qed.

(** X4: a write cycle sends as many frames as there are axes with at least
    one enabled channel, so never more than one per axis. *)
Theorem write_counts_enabled_axes (axes : list Axis) :
  List.length (write axes) = List.length (filter any_enabled axes) /\
  (List.length (write axes) <= List.length axes)%nat.
Proof.
  assert (E : List.length (write axes)
              = List.length (filter any_enabled axes)).
  { induction axes as [|axis rest IH]; [reflexivity|].
    rewrite write_cons, length_app, IH. cbn [filter].
    unfold write_axis, any_enabled.
    destruct (pos_input_enabled_ axis), (vel_input_enabled_ axis),
      (torque_input_enabled_ axis); reflexivity. }
  split; [exact E|]. rewrite E. apply filter_length_le.
Qed.

End WritePathMore.

(** ** More on the mode switch *)

Section ModeSwitchMore.
Local Open Scope float_scope.

Lemma set_inputs_enabled_same (axis : Axis) :
  set_inputs_enabled axis (pos_input_enabled_ axis)
    (vel_input_enabled_ axis) (torque_input_enabled_ axis) = axis.
Proof. now destruct axis. Qed.

Lemma set_axis_command_mode_cases (active : bool) (axis : Axis) :
  set_axis_command_mode active axis =
    if active && pos_input_enabled_ axis
    then set_axis_command_mode true axis
    else (axis, snd (set_axis_command_mode active axis)).
Proof.
  unfold set_axis_command_mode, select_control_mode.
  destruct active; cbn; [|reflexivity].
  destruct (pos_input_enabled_ axis); [reflexivity|].
  destruct (vel_input_enabled_ axis); [reflexivity|].
  destruct (torque_input_enabled_ axis); reflexivity.
Qed.

Lemma set_axis_command_mode_keeps (active : bool) (axis : Axis) :
  Axis_feedback (fst (set_axis_command_mode active axis))
    = Axis_feedback axis /\
  Axis_enabled (fst (set_axis_command_mode active axis))
    = Axis_enabled axis.
Proof.
  unfold set_axis_command_mode, select_control_mode.
  destruct active; cbn; [|now split].
  destruct (pos_input_enabled_ axis) eqn:Ep; [now split|].
  destruct (vel_input_enabled_ axis); [now split|].
  destruct (torque_input_enabled_ axis); now split.
Qed.

Lemma mode_switch_position_seeds (axis : Axis) :
  pos_input_enabled_ axis = true ->
  fst (set_axis_command_mode true axis)
  = set_setpoints axis (pos_estimate_ axis) zero_f zero_f.
Proof.
  intro H. unfold set_axis_command_mode, select_control_mode.
  now rewrite H.
Qed.

(** X5: the mode switch of an axis never changes its configuration, the
    values the drive reported or the enabled flags; it changes the
    setpoints only when the interface is active and the position channel is
    enabled, and otherwise returns the axis as it was, stale velocity and
    torque setpoints included. *)
Theorem mode_switch_changes_setpoints_only (active : bool) (axis : Axis) :
  Axis_feedback (fst (set_axis_command_mode active axis))
    = Axis_feedback axis /\
  Axis_enabled (fst (set_axis_command_mode active axis))
    = Axis_enabled axis /\
  (active && pos_input_enabled_ axis = false ->
   fst (set_axis_command_mode active axis) = axis).
Proof.
  destruct (set_axis_command_mode_keeps active axis) as [Hf He].
  split; [exact Hf|]. split; [exact He|].
  intro H. rewrite set_axis_command_mode_cases, H. reflexivity.
Qed.

(** X6: with the interface active, the controller mode that the mode
    switch requests and the setpoint message that the following write
    cycle sends for the axis belong together (position with Set_Input_Pos,
    velocity with Set_Input_Vel, torque with Set_Input_Torque); when the
    switch requests no mode it sends the idle request alone and the write
    cycle sends nothing. *)
Theorem mode_switch_agrees_with_write (axis : Axis) :
  let (axis', out) := set_axis_command_mode true axis in
  map (fun f => kind_of (sent_msg f)) (write_axis axis') =
    match requested_mode out with
    | Some mode => [setpoint_kind mode]
    | None => []
    end /\
  (requested_mode out = None -> out = [Axis_send axis idle_request]) /\
  (requested_mode out <> None ->
   map (fun f => kind_of (sent_msg f)) out
     = [KControllerMode; KClearErrors; KAxisState]).
Proof.
  unfold set_axis_command_mode, select_control_mode, write_axis.
  destruct (pos_input_enabled_ axis) eqn:Ep,
    (vel_input_enabled_ axis) eqn:Ev,
    (torque_input_enabled_ axis) eqn:Et;
    cbn; rewrite ?Ep, ?Ev, ?Et; cbn;
    (split; [reflexivity|split; intro H]);
    try discriminate H; try reflexivity; now elim H.
Qed.

Lemma for_each_axis_keeps {T : Type} (F : Axis -> T)
    (body : Axis -> Axis * list sent_frame) :
  (forall axis, F (fst (body axis)) = F axis) ->
  forall axes : list Axis,
    map F (fst (for_each_axis body axes)) = map F axes.
Proof.
  intros HF axes. induction axes as [|axis rest IH]; [reflexivity|].
  cbn [for_each_axis]. specialize (HF axis).
  destruct (body axis) as [axis' out].
  destruct (for_each_axis body rest) as [rest' out'].
  cbn in *. now rewrite HF, IH.
Qed.

Lemma for_each_axis_none_enabled (axes : list Axis) :
  Forall (fun axis => any_enabled axis = false) axes ->
  for_each_axis (set_axis_command_mode true) axes =
    (axes, map (fun axis => Axis_send axis idle_request) axes).
Proof.
  induction 1 as [|axis rest Hax _ IH]; [reflexivity|].
  cbn [for_each_axis map]. rewrite IH.
  unfold any_enabled in Hax.
  apply orb_false_elim in Hax. destruct Hax as [Hpv Ht].
  apply orb_false_elim in Hpv. destruct Hpv as [Hp Hv].
  unfold set_axis_command_mode, select_control_mode.
  rewrite Hp, Hv, Ht. reflexivity.
Qed.

(** X7: activating an interface none of whose axes has an enabled channel,
    as it is before any command interface was started, leaves every axis
    as it was and sends one idle request per axis: activation alone puts
    no drive into closed-loop control. *)
Theorem activate_without_channels_requests_idle
    (hw : ODriveHardwareInterface) :
  Forall (fun axis => any_enabled axis = false) (axes_ hw) ->
  on_activate hw =
    ({| active_ := true; axes_ := axes_ hw; joints_ := joints_ hw |},
     map (fun axis =>
            {| sent_node_id := node_id_ axis;
               sent_msg :=
                 Set_Axis_State
                   {| Axis_Requested_State := AXIS_STATE_IDLE |} |})
         (axes_ hw)).
Proof.
  intro H. unfold on_activate.
  now rewrite (for_each_axis_none_enabled (axes_ hw) H).
Qed.

Lemma activate_without_channels_requests_idle_witness :
  on_activate hw_fresh =
    ({| active_ := true; axes_ := [Axis_new 5 2 false];
        joints_ := ["joint1"%string] |},
     [ {| sent_node_id := 5;
          sent_msg :=
            Set_Axis_State
              {| Axis_Requested_State := AXIS_STATE_IDLE |} |} ]).
Proof.
  apply (activate_without_channels_requests_idle hw_fresh).
  repeat constructor.
Defined.

(** The stop loop and the start loop in closed form. *)
Lemma fold_switch_key (joint : string) (value : bool) (keys : list string) :
  forall p v t mode_switch : bool,
    fold_left (switch_key joint value) keys (p, v, t, mode_switch) =
      (if mentions joint HW_IF_POSITION keys then value else p,
       if mentions joint HW_IF_VELOCITY keys then value else v,
       if mentions joint HW_IF_EFFORT keys then value else t,
       mode_switch || mentions_joint joint keys).
Proof.
  induction keys as [|key rest IH]; intros p v t mode_switch.
  - cbn. now rewrite orb_false_r.
  - cbn [fold_left]. unfold switch_key at 2.
    unfold mentions_joint, mentions in *. cbn [existsb].
    destruct (String.eqb (joint ++ "/" ++ HW_IF_POSITION) key);
      destruct (String.eqb (joint ++ "/" ++ HW_IF_VELOCITY) key);
      destruct (String.eqb (joint ++ "/" ++ HW_IF_EFFORT) key);
      rewrite IH; cbn;
      destruct (existsb _ rest), (existsb _ rest), (existsb _ rest),
        mode_switch, value; reflexivity.
Qed.

Lemma switch_axis_closed_form (active : bool)
    (start_interfaces stop_interfaces : list string)
    (joint : string) (axis : Axis) :
  switch_axis active start_interfaces stop_interfaces joint axis =
    let axis1 :=
      set_inputs_enabled axis
        (switched joint HW_IF_POSITION start_interfaces stop_interfaces
           (pos_input_enabled_ axis))
        (switched joint HW_IF_VELOCITY start_interfaces stop_interfaces
           (vel_input_enabled_ axis))
        (switched joint HW_IF_EFFORT start_interfaces stop_interfaces
           (torque_input_enabled_ axis)) in
    if mentions_joint joint stop_interfaces
       || mentions_joint joint start_interfaces
    then set_axis_command_mode active axis1
    else (axis1, []).
Proof.
  unfold switch_axis. rewrite !fold_switch_key. reflexivity.
Qed.

Lemma switch_axes_nth (active : bool)
    (start_interfaces stop_interfaces : list string) :
  forall (axes : list Axis) (js : list string) (i : nat)
         (axis : Axis) (joint : string),
    nth_error axes i = Some axis ->
    nth_error js i = Some joint ->
    nth_error
      (fst (switch_axes active start_interfaces stop_interfaces js axes)) i
    = Some (fst (switch_axis active start_interfaces stop_interfaces
                   joint axis)).
Proof.
  induction axes as [|a rest IH]; intros js i axis joint Ha Hj.
  - now destruct i.
  - destruct js as [|j js']; [now destruct i|].
    cbn [switch_axes].
    destruct (switch_axis active start_interfaces stop_interfaces j a)
      as [a' out] eqn:Ea.
    destruct (switch_axes active start_interfaces stop_interfaces js' rest)
      as [rest' out'] eqn:Er.
    destruct i as [|i]; cbn in *.
    + injection Ha as <-. injection Hj as <-. now rewrite Ea.
    + specialize (IH js' i axis joint Ha Hj). now rewrite Er in IH.
Qed.

(** X8: after [perform_command_mode_switch] each enabled flag of an axis
    is true when the full name of its interface is among the interfaces to
    start, else false when it is among those to stop, else what it was: a
    name in both lists ends up started, and names of other joints change
    nothing. *)
Theorem mode_switch_sets_flags
    (start_interfaces stop_interfaces : list string)
    (hw : ODriveHardwareInterface) (i : nat) (axis : Axis) (joint : string) :
  nth_error (axes_ hw) i = Some axis ->
  nth_error (joints_ hw) i = Some joint ->
  exists axis' : Axis,
    nth_error
      (axes_ (fst (perform_command_mode_switch start_interfaces
                     stop_interfaces hw))) i = Some axis' /\
    pos_input_enabled_ axis' =
      switched joint HW_IF_POSITION start_interfaces stop_interfaces
        (pos_input_enabled_ axis) /\
    vel_input_enabled_ axis' =
      switched joint HW_IF_VELOCITY start_interfaces stop_interfaces
        (vel_input_enabled_ axis) /\
    torque_input_enabled_ axis' =
      switched joint HW_IF_EFFORT start_interfaces stop_interfaces
        (torque_input_enabled_ axis).
Proof.
  intros Ha Hj.
  exists (fst (switch_axis (active_ hw) start_interfaces stop_interfaces
                 joint axis)).
  split.
  - unfold perform_command_mode_switch.
    pose proof (switch_axes_nth (active_ hw) start_interfaces
                  stop_interfaces (axes_ hw) (joints_ hw) i axis joint
                  Ha Hj) as H.
    destruct (switch_axes (active_ hw) start_interfaces stop_interfaces
                (joints_ hw) (axes_ hw)) as [axes out].
    exact H.
  - rewrite switch_axis_closed_form. cbv zeta.
    destruct (mentions_joint joint stop_interfaces
              || mentions_joint joint start_interfaces).
    + destruct (set_axis_command_mode_keeps (active_ hw)
                  (set_inputs_enabled axis
                     (switched joint HW_IF_POSITION start_interfaces
                        stop_interfaces (pos_input_enabled_ axis))
                     (switched joint HW_IF_VELOCITY start_interfaces
                        stop_interfaces (vel_input_enabled_ axis))
                     (switched joint HW_IF_EFFORT start_interfaces
                        stop_interfaces (torque_input_enabled_ axis))))
        as [_ He].
      unfold Axis_enabled in He. cbn in He.
      injection He as Hp Hv Ht. auto.
    + cbn. auto.
Qed.

Lemma mode_switch_sets_flags_witness :
  exists axis' : Axis,
    nth_error
      (axes_ (fst (perform_command_mode_switch
                     ["elbow/position"; "shoulder/effort"]%string
                     ["elbow/velocity"; "elbow/position"]%string
                     hw_two_axes))) 1 = Some axis' /\
    pos_input_enabled_ axis' = true /\
    vel_input_enabled_ axis' = false /\
    torque_input_enabled_ axis' = false.
Proof.
  exact (mode_switch_sets_flags
           ["elbow/position"; "shoulder/effort"]%string
           ["elbow/velocity"; "elbow/position"]%string
           hw_two_axes 1
           (set_inputs_enabled (Axis_new 7 1 false) false true false)
           "elbow"%string eq_refl eq_refl).
Defined.

End ModeSwitchMore.

(** ** perform_command_mode_switch over the whole interface *)

Section ModeSwitchInterface.
Local Open Scope float_scope.

Lemma switch_axes_keeps {T : Type} (F : Axis -> T) (active : bool)
    (start_interfaces stop_interfaces : list string) :
  (forall joint axis,
     F (fst (switch_axis active start_interfaces stop_interfaces
               joint axis)) = F axis) ->
  forall (axes : list Axis) (js : list string),
    map F (fst (switch_axes active start_interfaces stop_interfaces
                  js axes)) = map F axes.
Proof.
  intros HF axes.
  induction axes as [|a rest IH]; intros js; [now destruct js|].
  destruct js as [|j js']; [reflexivity|].
  cbn [switch_axes]. specialize (HF j a). specialize (IH js').
  destruct (switch_axis active start_interfaces stop_interfaces j a)
    as [a' out].
  destruct (switch_axes active start_interfaces stop_interfaces js' rest)
    as [rest' out'].
  cbn in *. now rewrite HF, IH.
Qed.

Lemma switch_axes_sends (P : sent_frame -> Prop) (active : bool)
    (start_interfaces stop_interfaces : list string) :
  (forall joint axis,
     Forall P (snd (switch_axis active start_interfaces stop_interfaces
                      joint axis))) ->
  forall (axes : list Axis) (js : list string),
    Forall P (snd (switch_axes active start_interfaces stop_interfaces
                     js axes)).
Proof.
  intros HP axes.
  induction axes as [|a rest IH]; intros js; [destruct js; constructor|].
  destruct js as [|j js']; [constructor|].
  cbn [switch_axes]. specialize (HP j a). specialize (IH js').
  destruct (switch_axis active start_interfaces stop_interfaces j a)
    as [a' out].
  destruct (switch_axes active start_interfaces stop_interfaces js' rest)
    as [rest' out'].
  cbn in *. apply Forall_app. now split.
Qed.

Lemma switch_axis_keeps_feedback (active : bool)
    (start_interfaces stop_interfaces : list string)
    (joint : string) (axis : Axis) :
  Axis_feedback
    (fst (switch_axis active start_interfaces stop_interfaces joint axis))
  = Axis_feedback axis.
Proof.
  rewrite switch_axis_closed_form. cbv zeta.
  destruct (mentions_joint joint stop_interfaces
            || mentions_joint joint start_interfaces); [|reflexivity].
  now rewrite (proj1 (set_axis_command_mode_keeps active _)).
Qed.

Lemma mentions_joint_false (joint : string) (keys : list string) :
  mentions_joint joint keys = false ->
  mentions joint HW_IF_POSITION keys = false /\
  mentions joint HW_IF_VELOCITY keys = false /\
  mentions joint HW_IF_EFFORT keys = false.
Proof.
  unfold mentions_joint. intro H.
  apply orb_false_elim in H. destruct H as [H Ht].
  apply orb_false_elim in H. destruct H as [Hp Hv]. auto.
Qed.

Lemma switch_axis_unmentioned (active : bool)
    (start_interfaces stop_interfaces : list string)
    (joint : string) (axis : Axis) :
  mentions_joint joint stop_interfaces = false ->
  mentions_joint joint start_interfaces = false ->
  switch_axis active start_interfaces stop_interfaces joint axis
  = (axis, []).
Proof.
  intros Hstop Hstart. rewrite switch_axis_closed_form. cbv zeta.
  rewrite Hstop, Hstart. cbn [orb].
  destruct (mentions_joint_false joint stop_interfaces Hstop)
    as (Hp & Hv & Ht).
  destruct (mentions_joint_false joint start_interfaces Hstart)
    as (Hp' & Hv' & Ht').
  unfold switched. rewrite Hp, Hv, Ht, Hp', Hv', Ht'.
  now rewrite set_inputs_enabled_same.
Qed.

(** X9: when none of the names to start or to stop is the full name of an
    interface of a joint of this hardware (in particular when both lists
    are empty), [perform_command_mode_switch] leaves the interface exactly
    as it was and sends nothing. *)
Theorem mode_switch_of_foreign_names_does_nothing
    (start_interfaces stop_interfaces : list string)
    (hw : ODriveHardwareInterface) :
  Forall
    (fun joint =>
       mentions_joint joint stop_interfaces = false /\
       mentions_joint joint start_interfaces = false)
    (joints_ hw) ->
  perform_command_mode_switch start_interfaces stop_interfaces hw
  = (hw, []).
Proof.
  intro Hall. unfold perform_command_mode_switch.
  assert (E : switch_axes (active_ hw) start_interfaces stop_interfaces
                (joints_ hw) (axes_ hw) = (axes_ hw, [])).
  { generalize (axes_ hw) as axes.
    induction Hall as [|j js' [Hstop Hstart] _ IH]; intros axes.
    - now destruct axes.
    - destruct axes as [|a rest]; [reflexivity|].
      cbn [switch_axes].
      rewrite (switch_axis_unmentioned (active_ hw) start_interfaces
                 stop_interfaces j a Hstop Hstart), IH.
      reflexivity. }
  rewrite E. now destruct hw.
Qed.

Lemma mode_switch_of_foreign_names_does_nothing_witness :
  perform_command_mode_switch
    ["wrist/position"; "elbow/current"]%string ["shoulder"]%string
    hw_two_axes
  = (hw_two_axes, []).
Proof.
  apply (mode_switch_of_foreign_names_does_nothing
           ["wrist/position"; "elbow/current"]%string ["shoulder"]%string
           hw_two_axes).
  repeat constructor.
Defined.

(** X10: with the interface active, naming the position interface of a
    joint among the interfaces to start sets the position setpoint of its
    axis to the position estimate and the other two setpoints to zero,
    whether the position channel was enabled before or not and whatever
    the setpoints were. *)
Theorem start_position_reseeds_setpoints
    (start_interfaces stop_interfaces : list string)
    (hw : ODriveHardwareInterface) (i : nat) (axis : Axis) (joint : string) :
  active_ hw = true ->
  nth_error (axes_ hw) i = Some axis ->
  nth_error (joints_ hw) i = Some joint ->
  mentions joint HW_IF_POSITION start_interfaces = true ->
  exists axis' : Axis,
    nth_error
      (axes_ (fst (perform_command_mode_switch start_interfaces
                     stop_interfaces hw))) i = Some axis' /\
    pos_setpoint_ axis' = pos_estimate_ axis /\
    vel_setpoint_ axis' = 0 /\
    torque_setpoint_ axis' = 0.
Proof.
  intros Hact Ha Hj Hpos.
  exists (fst (switch_axis (active_ hw) start_interfaces stop_interfaces
                 joint axis)).
  split.
  - unfold perform_command_mode_switch.
    pose proof (switch_axes_nth (active_ hw) start_interfaces
                  stop_interfaces (axes_ hw) (joints_ hw) i axis joint
                  Ha Hj) as H.
    destruct (switch_axes (active_ hw) start_interfaces stop_interfaces
                (joints_ hw) (axes_ hw)) as [axes out].
    exact H.
  - rewrite switch_axis_closed_form, Hact. cbv zeta.
    assert (Hm : mentions_joint joint start_interfaces = true).
    { unfold mentions_joint. now rewrite Hpos. }
    rewrite Hm, orb_true_r.
    rewrite mode_switch_position_seeds.
    + repeat split.
    + cbn. unfold switched. now rewrite Hpos.
Qed.

Lemma start_position_reseeds_setpoints_witness :
  exists axis' : Axis,
    nth_error
      (axes_ (fst (perform_command_mode_switch ["joint1/position"%string]
                     [] hw_running))) 0 = Some axis' /\
    pos_setpoint_ axis' = pos_estimate_ axis_all_enabled /\
    vel_setpoint_ axis' = 0 /\
    torque_setpoint_ axis' = 0.
Proof.
  exact (start_position_reseeds_setpoints ["joint1/position"%string] []
           hw_running 0 axis_all_enabled "joint1"%string
           eq_refl eq_refl eq_refl eq_refl).
Defined.

(** X11: while the interface is not active, [perform_command_mode_switch]
    sends nothing but idle requests, whatever is started or stopped; the
    enabled flags are set all the same (X8). *)
Theorem inactive_mode_switch_requests_idle_only
    (start_interfaces stop_interfaces : list string)
    (hw : ODriveHardwareInterface) :
  active_ hw = false ->
  Forall (fun f => sent_msg f = idle_request)
    (snd (perform_command_mode_switch start_interfaces stop_interfaces hw)).
Proof.
  intro Hact. unfold perform_command_mode_switch. rewrite Hact.
  pose proof (switch_axes_sends (fun f => sent_msg f = idle_request) false
                start_interfaces stop_interfaces) as H.
  destruct (switch_axes false start_interfaces stop_interfaces
              (joints_ hw) (axes_ hw)) as [axes out] eqn:E.
  cbn. specialize (H ltac:(
    intros joint axis; rewrite switch_axis_closed_form; cbv zeta;
    destruct (mentions_joint joint stop_interfaces
              || mentions_joint joint start_interfaces);
    repeat constructor) (axes_ hw) (joints_ hw)).
  now rewrite E in H.
Qed.

Lemma inactive_mode_switch_requests_idle_only_witness :
  Forall (fun f => sent_msg f = idle_request)
    (snd (perform_command_mode_switch ["joint1/position"%string] []
            hw_fresh)).
Proof.
  apply (inactive_mode_switch_requests_idle_only
           ["joint1/position"%string] [] hw_fresh).
  reflexivity.
Defined.

(** The flag is set although only the idle request went out. *)
Example inactive_start_sets_flag :
  let r := perform_command_mode_switch ["joint1/position"%string] []
             hw_fresh in
  map pos_input_enabled_ (axes_ (fst r)) = [true] /\
  map sent_msg (snd r) = [idle_request].
Proof. split; reflexivity. Qed.

(** X12: activation, deactivation and the command mode switch never change
    the number of axes, their configuration or the values the drives
    reported; activation and deactivation also leave the enabled flags as
    they are, so that activating again after a deactivation finds the
    channels that were enabled before. *)
Theorem lifecycle_keeps_feedback_and_flags
    (start_interfaces stop_interfaces : list string)
    (hw : ODriveHardwareInterface) :
  map Axis_feedback (axes_ (fst (on_activate hw)))
    = map Axis_feedback (axes_ hw) /\
  map Axis_feedback (axes_ (fst (on_deactivate hw)))
    = map Axis_feedback (axes_ hw) /\
  map Axis_feedback
    (axes_ (fst (perform_command_mode_switch start_interfaces
                   stop_interfaces hw)))
    = map Axis_feedback (axes_ hw) /\
  map Axis_enabled (axes_ (fst (on_activate hw)))
    = map Axis_enabled (axes_ hw) /\
  map Axis_enabled (axes_ (fst (on_deactivate hw)))
    = map Axis_enabled (axes_ hw).
Proof.
  assert (Hfor : forall (T : Type) (F : Axis -> T) (active : bool),
             (forall axis,
                F (fst (set_axis_command_mode active axis)) = F axis) ->
             map F (fst (for_each_axis (set_axis_command_mode active)
                           (axes_ hw))) = map F (axes_ hw)).
  { intros T F active HF. now apply for_each_axis_keeps. }
  unfold on_activate, on_deactivate, perform_command_mode_switch.
  pose proof (Hfor _ Axis_feedback true
                (fun a => proj1 (set_axis_command_mode_keeps true a))) as H1.
  pose proof (Hfor _ Axis_feedback false
                (fun a => proj1 (set_axis_command_mode_keeps false a)))
    as H2.
  pose proof (Hfor _ Axis_enabled true
                (fun a => proj2 (set_axis_command_mode_keeps true a))) as H4.
  pose proof (Hfor _ Axis_enabled false
                (fun a => proj2 (set_axis_command_mode_keeps false a)))
    as H5.
  pose proof (switch_axes_keeps Axis_feedback (active_ hw)
                start_interfaces stop_interfaces
                (switch_axis_keeps_feedback (active_ hw) start_interfaces
                   stop_interfaces) (axes_ hw) (joints_ hw)) as H3.
  destruct (for_each_axis (set_axis_command_mode true) (axes_ hw)).
  destruct (for_each_axis (set_axis_command_mode false) (axes_ hw)).
  destruct (switch_axes (active_ hw) start_interfaces stop_interfaces
              (joints_ hw) (axes_ hw)).
  cbn in *. auto.
Qed.

End ModeSwitchInterface.

(** ** More on inbound frames and the read cycle *)

Section InboundMore.
Context {codec : CanSimpleMessages}.
Local Open Scope float_scope.

Ltac decode_paths :=
  unfold Axis_on_can_msg, try_decode; cbv zeta;
  destruct (_ =? Get_Encoder_Estimates_cmd_id)%Z eqn:?;
  [|destruct (_ =? Get_Torques_cmd_id)%Z eqn:?];
  try destruct (_ <? _)%Z eqn:?.

Lemma addressed_to_same_node (frame : can_frame) (a b : Axis) :
  node_id_ a = node_id_ b -> addressed_to frame a = addressed_to frame b.
Proof. intro H. unfold addressed_to. now rewrite H. Qed.

Lemma addressed_to_decoded (frame frame' : can_frame) (axis : Axis) :
  addressed_to frame (Axis_on_can_msg axis frame')
  = addressed_to frame axis.
Proof.
  apply addressed_to_same_node. apply Axis_on_can_msg_config.
Qed.

Lemma drain_inputs (pending : list can_frame) :
  forall axes : list Axis,
    map Axis_inputs (fold_left on_can_msg pending axes)
    = map Axis_inputs axes.
Proof.
  induction pending as [|frame rest IH]; intro axes; cbn.
  - reflexivity.
  - now rewrite IH, on_can_msg_inputs.
Qed.

Lemma drain_nth_inputs (pending : list can_frame) (axes : list Axis)
    (i : nat) (axis : Axis) :
  nth_error axes i = Some axis ->
  exists a : Axis,
    nth_error (fold_left on_can_msg pending axes) i = Some a /\
    Axis_inputs a = Axis_inputs axis.
Proof.
  intro Hi.
  pose proof (f_equal (fun l => nth_error l i)
                (drain_inputs pending axes)) as H.
  cbv beta in H. rewrite !nth_error_map, Hi in H.
  destruct (nth_error (fold_left on_can_msg pending axes) i) as [a|];
    [|discriminate H].
  exists a. split; [reflexivity|]. unfold option_map in H. congruence.
Qed.

(** X13: a frame never changes the configuration, the setpoints or the
    enabled flags of the axis that decodes it; a frame with the command id
    of the encoder estimates leaves the two torque values as they were, and
    a frame with any other command id leaves the position and velocity
    estimates as they were. *)
Theorem decoding_writes_only_its_fields (axis : Axis) (frame : can_frame) :
  Axis_inputs (Axis_on_can_msg axis frame) = Axis_inputs axis /\
  (Z.land (can_id frame) 0x1f = Get_Encoder_Estimates_cmd_id ->
   torque_target_ (Axis_on_can_msg axis frame) = torque_target_ axis /\
   torque_estimate_ (Axis_on_can_msg axis frame) = torque_estimate_ axis) /\
  (Z.land (can_id frame) 0x1f <> Get_Encoder_Estimates_cmd_id ->
   pos_estimate_ (Axis_on_can_msg axis frame) = pos_estimate_ axis /\
   vel_estimate_ (Axis_on_can_msg axis frame) = vel_estimate_ axis).
Proof.
  split; [apply Axis_on_can_msg_inputs|]. split.
  - intro Hcmd. apply Z.eqb_eq in Hcmd.
    unfold Axis_on_can_msg, try_decode. cbv zeta. rewrite Hcmd.
    destruct (_ <? _)%Z; split; reflexivity.
  - intro Hcmd. apply Z.eqb_neq in Hcmd.
    unfold Axis_on_can_msg, try_decode. cbv zeta. rewrite Hcmd.
    destruct (_ =? Get_Torques_cmd_id)%Z; [|split; reflexivity].
    destruct (_ <? _)%Z; split; reflexivity.
Qed.

(** X14: a frame whose command id is neither that of the encoder estimates
    nor that of the torques is ignored, whatever its length and payload:
    the axis it is addressed to, and with it every axis, stays exactly as
    it was. *)
Theorem unknown_command_is_ignored (frame : can_frame) :
  Z.land (can_id frame) 0x1f <> Get_Encoder_Estimates_cmd_id ->
  Z.land (can_id frame) 0x1f <> Get_Torques_cmd_id ->
  (forall axis : Axis, Axis_on_can_msg axis frame = axis) /\
  (forall axes : list Axis, on_can_msg axes frame = axes).
Proof.
  intros Henc Htor.
  apply Z.eqb_neq in Henc. apply Z.eqb_neq in Htor.
  assert (H : forall axis : Axis, Axis_on_can_msg axis frame = axis).
  { intro axis. unfold Axis_on_can_msg. cbv zeta.
    now rewrite Henc, Htor. }
  split; [exact H|].
  intro axes. unfold on_can_msg.
  rewrite <- (map_id axes) at 2. apply map_ext. intro a.
  destruct (addressed_to frame a); [apply H|reflexivity].
Qed.

(** X15: receiving the same frame twice in a row has the effect of
    receiving it once. *)
Theorem frame_twice_is_frame_once (axes : list Axis) (frame : can_frame) :
  on_can_msg (on_can_msg axes frame) frame = on_can_msg axes frame.
Proof.
  unfold on_can_msg. rewrite map_map. apply map_ext. intro a.
  destruct (addressed_to frame a) eqn:Ea; [|now rewrite Ea].
  rewrite addressed_to_decoded, Ea.
  decode_paths; reflexivity.
Qed.

(** X16: two frames for different node ids can be received in either
    order with the same result. *)
Theorem frames_of_different_nodes_commute
    (axes : list Axis) (f1 f2 : can_frame) :
  Z.shiftr (can_id f1) 5 <> Z.shiftr (can_id f2) 5 ->
  on_can_msg (on_can_msg axes f1) f2 = on_can_msg (on_can_msg axes f2) f1.
Proof.
  intro Hne. unfold on_can_msg. rewrite !map_map. apply map_ext. intro a.
  destruct (addressed_to f1 a) eqn:E1, (addressed_to f2 a) eqn:E2;
    rewrite ?addressed_to_decoded, ?E1, ?E2; try reflexivity.
  exfalso. apply Hne. unfold addressed_to in E1, E2.
  apply Z.eqb_eq in E1. apply Z.eqb_eq in E2. congruence.
Qed.

(** X17: of several encoder frames for an axis in one read cycle the last
    one decides: when the last pending frame is a complete encoder frame
    for the axis, the cycle leaves the position and velocity estimates at
    the values of that frame, times 2 pi, times the signed gear ratio,
    whatever the frames before it were. *)
Theorem last_encoder_frame_decides
    (pending : list can_frame) (frame : can_frame)
    (axes : list Axis) (i : nat) (axis : Axis) :
  nth_error axes i = Some axis ->
  Z.shiftr (can_id frame) 5 = node_id_ axis ->
  Z.land (can_id frame) 0x1f = Get_Encoder_Estimates_cmd_id ->
  (Get_Encoder_Estimates_msg_length <= can_dlc frame)%Z ->
  exists axis' : Axis,
    nth_error (read (pending ++ [frame]) axes) i = Some axis' /\
    pos_estimate_ axis' =
      Pos_Estimate (Get_Encoder_Estimates_decode_buf (data frame))
      * (two * M_PI) * read_factor axis /\
    vel_estimate_ axis' =
      Vel_Estimate (Get_Encoder_Estimates_decode_buf (data frame))
      * (two * M_PI) * read_factor axis.
Proof.
  intros Hi Haddr Hcmd Hlen.
  destruct (drain_nth_inputs pending axes i axis Hi) as (a & Ha & Hin).
  assert (Hcfg : node_id_ a = node_id_ axis /\
                 transmission_ratio_ a = transmission_ratio_ axis /\
                 reverse_axis_ a = reverse_axis_ axis).
  { unfold Axis_inputs in Hin. injection Hin. auto. }
  destruct Hcfg as (Hid & Hg & Hrev).
  set (decoded := Axis_on_can_msg a frame).
  assert (Hlast : nth_error (fold_left on_can_msg (pending ++ [frame]) axes) i
                  = Some decoded).
  { rewrite fold_left_app. cbn [fold_left].
    rewrite (on_can_msg_nth _ frame i a Ha).
    unfold addressed_to. now rewrite Hid, Haddr, Z.eqb_refl. }
  exists (read_convert decoded).
  split; [now apply read_nth|].
  destruct (read_convert_estimates decoded) as (-> & -> & _).
  assert (Hk : read_factor decoded = read_factor axis).
  { unfold read_factor, decoded.
    destruct (Axis_on_can_msg_config a frame) as (_ & -> & ->).
    now rewrite Hg, Hrev. }
  rewrite Hk. unfold decoded, Axis_on_can_msg, try_decode. cbv zeta.
  apply Z.eqb_eq in Hcmd. apply Z.ltb_ge in Hlen.
  rewrite Hcmd, Hlen. split; reflexivity.
Qed.

(** X18: a read cycle never changes what the next write cycle sends: the
    frames of [write] are the same before and after [read], whatever
    frames were pending. *)
Theorem read_does_not_change_write
    (pending : list can_frame) (axes : list Axis) :
  write (read pending axes) = write axes.
Proof. apply write_inputs, read_inputs. Qed.

(** X19: what the state interfaces show after a read cycle: through the
    pointer to [torque_target_] the torque target as the drive sent it,
    without gear ratio or sign, and through the pointers to
    [vel_estimate_] and [pos_estimate_] the decoded value times the signed
    gear ratio. *)
Theorem state_values_after_read
    (pending : list can_frame) (axes : list Axis)
    (h : StateInterface) (axis : Axis) :
  nth_error (fold_left on_can_msg pending axes) (state_axis h) = Some axis ->
  state_value (read pending axes) h =
    Some match state_ptr h with
         | Ptr_torque_target => torque_target_ axis
         | Ptr_vel_estimate => vel_estimate_ axis * read_factor axis
         | Ptr_pos_estimate => pos_estimate_ axis * read_factor axis
         end.
Proof.
  intro H. unfold state_value.
  rewrite (read_nth pending axes (state_axis h) axis H).
  destruct (read_convert_estimates axis) as (Ep & Ev & _).
  destruct (state_ptr h).
  - unfold read_convert. now destruct (reverse_axis_ axis).
  - now rewrite Ev.
  - now rewrite Ep.
Qed.

End InboundMore.

(** ** The exported interfaces *)

Section Exports.

Lemma export_state_from_nth (js : list string) :
  forall (k i : nat) (joint : string),
    nth_error js i = Some joint ->
    nth_error (export_state_from k js) (3 * i) =
      Some {| state_joint := joint; state_interface_name := HW_IF_EFFORT;
              state_axis := k + i; state_ptr := Ptr_torque_target |} /\
    nth_error (export_state_from k js) (3 * i + 1) =
      Some {| state_joint := joint; state_interface_name := HW_IF_VELOCITY;
              state_axis := k + i; state_ptr := Ptr_vel_estimate |} /\
    nth_error (export_state_from k js) (3 * i + 2) =
      Some {| state_joint := joint; state_interface_name := HW_IF_POSITION;
              state_axis := k + i; state_ptr := Ptr_pos_estimate |}.
Proof.
  induction js as [|j rest IH]; intros k i joint Hi.
  - now destruct i.
  - destruct i as [|i].
    + cbn in Hi. injection Hi as <-. rewrite Nat.add_0_r. now cbn.
    + cbn in Hi. destruct (IH (S k) i joint Hi) as (H0 & H1 & H2).
      replace (3 * S i)%nat with (S (S (S (3 * i)))) by lia.
      replace (k + S i)%nat with (S k + i)%nat by lia.
      cbn [export_state_from nth_error Nat.add]. auto.
Qed.

Lemma export_state_from_length (js : list string) :
  forall k : nat,
    List.length (export_state_from k js) = (3 * List.length js)%nat.
Proof.
  induction js as [|j rest IH]; intro k; [reflexivity|].
  cbn [export_state_from List.length]. rewrite IH. lia.
Qed.

(** X20: [export_state_interfaces] exports three interfaces per joint, in
    joint order; those of joint [i] stand at the places 3i, 3i+1 and 3i+2,
    bear the joint's name and the interface names effort, velocity and
    position, and point into axis [i]: to [torque_target_] (not to
    [torque_estimate_]), to [vel_estimate_] and to [pos_estimate_]. *)
Theorem state_interfaces_of_joint
    (hw : ODriveHardwareInterface) (i : nat) (joint : string) :
  nth_error (joints_ hw) i = Some joint ->
  List.length (export_state_interfaces hw)
    = (3 * List.length (joints_ hw))%nat /\
  nth_error (export_state_interfaces hw) (3 * i) =
    Some {| state_joint := joint; state_interface_name := "effort";
            state_axis := i; state_ptr := Ptr_torque_target |} /\
  nth_error (export_state_interfaces hw) (3 * i + 1) =
    Some {| state_joint := joint; state_interface_name := "velocity";
            state_axis := i; state_ptr := Ptr_vel_estimate |} /\
  nth_error (export_state_interfaces hw) (3 * i + 2) =
    Some {| state_joint := joint; state_interface_name := "position";
            state_axis := i; state_ptr := Ptr_pos_estimate |}.
Proof.
  intro Hi. split; [apply export_state_from_length|].
  exact (export_state_from_nth (joints_ hw) 0 i joint Hi).
Qed.

Lemma state_interfaces_of_joint_witness :
  List.length (export_state_interfaces hw_two_axes) = 6%nat /\
  nth_error (export_state_interfaces hw_two_axes) 3 =
    Some {| state_joint := "elbow"; state_interface_name := "effort";
            state_axis := 1; state_ptr := Ptr_torque_target |}.
Proof.
  destruct (state_interfaces_of_joint hw_two_axes 1 "elbow"%string eq_refl)
    as (Hlen & Heffort & _).
  split; [exact Hlen | exact Heffort].
Defined.

Lemma export_command_from_nth (js : list string) :
  forall (k i : nat) (joint : string),
    nth_error js i = Some joint ->
    nth_error (export_command_from k js) (3 * i) =
      Some {| command_joint := joint;
              command_interface_name := HW_IF_EFFORT;
              command_axis := k + i; command_ptr := Ptr_torque_setpoint |} /\
    nth_error (export_command_from k js) (3 * i + 1) =
      Some {| command_joint := joint;
              command_interface_name := HW_IF_VELOCITY;
              command_axis := k + i; command_ptr := Ptr_vel_setpoint |} /\
    nth_error (export_command_from k js) (3 * i + 2) =
      Some {| command_joint := joint;
              command_interface_name := HW_IF_POSITION;
              command_axis := k + i; command_ptr := Ptr_pos_setpoint |}.
Proof.
  induction js as [|j rest IH]; intros k i joint Hi.
  - now destruct i.
  - destruct i as [|i].
    + cbn in Hi. injection Hi as <-. rewrite Nat.add_0_r. now cbn.
    + cbn in Hi. destruct (IH (S k) i joint Hi) as (H0 & H1 & H2).
      replace (3 * S i)%nat with (S (S (S (3 * i)))) by lia.
      replace (k + S i)%nat with (S k + i)%nat by lia.
      cbn [export_command_from nth_error Nat.add]. auto.
Qed.

Lemma store_at_feedback (m : command_member) (value : float)
    (axes : list Axis) :
  forall i : nat,
    map Axis_feedback (store_at i m value axes) = map Axis_feedback axes /\
    map Axis_enabled (store_at i m value axes) = map Axis_enabled axes.
Proof.
  induction axes as [|a rest IH]; intro i; [now destruct i|].
  destruct i as [|i]; cbn [store_at map].
  - split; f_equal; now destruct m.
  - destruct (IH i) as [-> ->]. now split.
Qed.

(** X21: [export_command_interfaces] exports three interfaces per joint,
    those of joint [i] at the places 3i, 3i+1 and 3i+2 with the names
    effort, velocity and position, pointing to [torque_setpoint_],
    [vel_setpoint_] and [pos_setpoint_] of axis [i]; a value stored
    through any of these pointers changes no configuration, no reported
    value and no enabled flag of any axis. *)
Theorem command_interfaces_of_joint
    (hw : ODriveHardwareInterface) (i : nat) (joint : string) :
  nth_error (joints_ hw) i = Some joint ->
  nth_error (export_command_interfaces hw) (3 * i) =
    Some {| command_joint := joint; command_interface_name := "effort";
            command_axis := i; command_ptr := Ptr_torque_setpoint |} /\
  nth_error (export_command_interfaces hw) (3 * i + 1) =
    Some {| command_joint := joint; command_interface_name := "velocity";
            command_axis := i; command_ptr := Ptr_vel_setpoint |} /\
  nth_error (export_command_interfaces hw) (3 * i + 2) =
    Some {| command_joint := joint; command_interface_name := "position";
            command_axis := i; command_ptr := Ptr_pos_setpoint |} /\
  forall (h : CommandInterface) (value : float),
    map Axis_feedback (command_set_value (axes_ hw) h value)
      = map Axis_feedback (axes_ hw) /\
    map Axis_enabled (command_set_value (axes_ hw) h value)
      = map Axis_enabled (axes_ hw).
Proof.
  intro Hi.
  destruct (export_command_from_nth (joints_ hw) 0 i joint Hi)
    as (H0 & H1 & H2).
  repeat split; try assumption;
    apply (store_at_feedback (command_ptr h) value (axes_ hw)).
Qed.

Lemma command_interfaces_of_joint_witness :
  nth_error (export_command_interfaces hw_two_axes) 5 =
    Some {| command_joint := "elbow"; command_interface_name := "position";
            command_axis := 1; command_ptr := Ptr_pos_setpoint |}.
Proof.
  destruct (command_interfaces_of_joint hw_two_axes 1 "elbow"%string
              eq_refl) as (_ & _ & Hpos & _).
  exact Hpos.
Defined.

End Exports.

(** ** on_init *)

Section OnInitProperties.
Variable stod : string -> option float.
Variable stoi : string -> option Z.

Lemma on_init_joint_fresh (joint : ComponentInfo) (axis : Axis) :
  on_init_joint stod stoi joint = Some axis ->
  exists (node_id : Z) (transmission_ratio : float) (reverse_axis : bool),
    axis = Axis_new node_id transmission_ratio reverse_axis.
Proof.
  unfold on_init_joint. intro H.
  destruct (match find "transmission_ratio" (parameters joint) with
            | Some s => stod s
            | None => Some 1%float
            end) as [ratio|]; [|discriminate H].
  destruct (find "node_id" (parameters joint)) as [s|]; [|discriminate H].
  destruct (stoi s) as [n|]; [|discriminate H].
  injection H as <-. eauto.
Qed.

Lemma on_init_loop_success (js : list ComponentInfo) :
  forall axes axes' : list Axis,
    on_init_loop stod stoi js axes = (axes', true) ->
    exists new : list Axis,
      axes' = axes ++ new /\
      Forall2 (fun joint axis => on_init_joint stod stoi joint = Some axis)
        js new.
Proof.
  induction js as [|joint rest IH]; intros axes axes' H; cbn in H.
  - injection H as <-. exists []. now rewrite app_nil_r.
  - destruct (on_init_joint stod stoi joint) as [axis|] eqn:E;
      [|discriminate H].
    destruct (IH _ _ H) as (new & -> & Hall).
    exists (axis :: new). rewrite <- app_assoc. split; [reflexivity|].
    now constructor.
Qed.

Lemma on_init_loop_failure (js : list ComponentInfo) :
  forall axes : list Axis,
    Exists (fun joint => on_init_joint stod stoi joint = None) js ->
    snd (on_init_loop stod stoi js axes) = false.
Proof.
  induction js as [|joint rest IH]; intros axes H.
  - inversion H.
  - cbn. destruct (on_init_joint stod stoi joint) as [axis|] eqn:E.
    + apply IH. inversion H as [? ? Hnone|]; subst; [congruence|assumption].
    + reflexivity.
Qed.



(** X23: a joint without a [node_id] parameter, or with one that
    [std::stoi] rejects, makes [on_init] end in an exception instead of
    returning; and when the base class reports an error, [on_init] returns
    ERROR without reading any joint. *)
Theorem on_init_needs_every_node_id
    (info : HardwareInfo) (hw : ODriveHardwareInterface) :
  (Exists
     (fun joint =>
        match find "node_id" (parameters joint) with
        | Some s => stoi s = None
        | None => True
        end)
     (joints info) ->
   exists axes : list Axis,
     on_init stod stoi true info hw = OnInitThrows axes) /\
  on_init stod stoi false info hw = OnInitError.
Proof.
  split; [|reflexivity].
  intro H. unfold on_init. cbn.
  assert (Hfail : snd (on_init_loop stod stoi (joints info) (axes_ hw))
                  = false).
  { apply on_init_loop_failure.
    eapply Exists_impl; [|exact H].
    intros joint Hj. unfold on_init_joint.
    destruct (match find "transmission_ratio" (parameters joint) with
              | Some s => stod s
              | None => Some 1%float
              end); [|reflexivity].
    cbv beta in Hj.
    destruct (find "node_id" (parameters joint)) as [s|]; [|reflexivity].
    now rewrite Hj. }
  destruct (on_init_loop stod stoi (joints info) (axes_ hw)) as [axes ok].
  cbn in Hfail. subst ok. now exists axes.
Qed.

(** X24: the axis made for a joint has transmission ratio 1 when the joint
    has no such parameter, and is reversed exactly when the joint has a
    [reverse_axis] parameter that is the string "true" or the string "1";
    its node id is the parsed number reduced to 32 bits. *)
Theorem on_init_joint_defaults (joint : ComponentInfo) (axis : Axis) :
  on_init_joint stod stoi joint = Some axis ->
  (find "transmission_ratio" (parameters joint) = None ->
   transmission_ratio_ axis = 1%float) /\
  (reverse_axis_ axis = true <->
   find "reverse_axis" (parameters joint) = Some "true"%string \/
   find "reverse_axis" (parameters joint) = Some "1"%string) /\
  (exists (s : string) (n : Z),
     find "node_id" (parameters joint) = Some s /\
     stoi s = Some n /\
     node_id_ axis = n mod 2 ^ 32)%Z.
Proof.
  unfold on_init_joint. intro H.
  destruct (find "transmission_ratio" (parameters joint)) as [sr|] eqn:Er.
  - destruct (stod sr) as [ratio|]; [|discriminate H].
    destruct (find "node_id" (parameters joint)) as [s|];
      [|discriminate H].
    destruct (stoi s) as [n|] eqn:En; [|discriminate H].
    injection H as <-. cbn. split; [discriminate|]. split.
    + destruct (find "reverse_axis" (parameters joint)) as [sv|].
      * rewrite orb_true_iff, !String.eqb_eq.
        split; intros [E|E]; [left|right|left|right]; congruence.
      * split; [discriminate|]. intros [E|E]; discriminate E.
    + exists s, n. auto.
  - destruct (find "node_id" (parameters joint)) as [s|];
      [|discriminate H].
    destruct (stoi s) as [n|] eqn:En; [|discriminate H].
    injection H as <-. cbn. split; [reflexivity|]. split.
    + destruct (find "reverse_axis" (parameters joint)) as [sv|].
      * rewrite orb_true_iff, !String.eqb_eq.
        split; intros [E|E]; [left|right|left|right]; congruence.
      * split; [discriminate|]. intros [E|E]; discriminate E.
    + exists s, n. auto.
Qed.

(** X25: after a successful [on_init] of an interface that had no axes,
    activating sends one idle request per axis and nothing else, and a
    write cycle sends nothing: no drive is commanded before a command
    interface is started. *)
Theorem fresh_interface_commands_nothing
    (info : HardwareInfo) (hw hw' : ODriveHardwareInterface)
    (base_ok : bool) :
  axes_ hw = [] ->
  on_init stod stoi base_ok info hw = OnInitSuccess hw' ->
  snd (on_activate hw')
    = map (fun axis =>
             {| sent_node_id := node_id_ axis;
                sent_msg :=
                  Set_Axis_State
                    {| Axis_Requested_State := AXIS_STATE_IDLE |} |})
        (axes_ hw') /\
  axes_ (fst (on_activate hw')) = axes_ hw' /\
  write (axes_ hw') = [].
Proof.
  intros Hempty H. unfold on_init in H.
  destruct base_ok; [|discriminate H]. cbn in H.
  destruct (on_init_loop stod stoi (joints info) (axes_ hw))
    as [axes [|]] eqn:E; [|discriminate H].
  injection H as <-. cbn [axes_].
  destruct (on_init_loop_success _ _ _ E) as (new & -> & Hall).
  rewrite Hempty. cbn [app].
  assert (Hnone : Forall (fun axis => any_enabled axis = false) new).
  { clear E. induction Hall as [|joint axis js new Hj _ IH]; constructor.
    - destruct (on_init_joint_fresh _ _ Hj) as (n & g & r & ->).
      reflexivity.
    - exact IH. }
  unfold on_activate. cbn [axes_].
  rewrite (for_each_axis_none_enabled new Hnone). cbn.
  split; [reflexivity|]. split; [reflexivity|].
  clear Hall E. induction Hnone as [|axis rest Hax _ IH]; [reflexivity|].
  rewrite write_cons, IH, app_nil_r.
  unfold any_enabled in Hax.
  apply orb_false_elim in Hax. destruct Hax as [Hpv Ht].
  apply orb_false_elim in Hpv. destruct Hpv as [Hp Hv].
  unfold write_axis. now rewrite Hp, Hv, Ht.
Qed.

End OnInitProperties.

(** ** The further properties on the samples *)

Section MoreSamples.
Local Open Scope float_scope.

Lemma unknown_command_is_ignored_witness :
  (forall axis : Axis, Axis_on_can_msg axis heartbeat_frame_node5 = axis) /\
  (forall axes : list Axis, on_can_msg axes heartbeat_frame_node5 = axes).
Proof.
  apply (@unknown_command_is_ignored odrive_can_simple
           heartbeat_frame_node5); discriminate.
Defined.

Lemma frames_of_different_nodes_commute_witness :
  on_can_msg (on_can_msg (axes_ hw_two_axes) encoder_frame_half_turn)
    encoder_frame_other_node
  = on_can_msg (on_can_msg (axes_ hw_two_axes) encoder_frame_other_node)
      encoder_frame_half_turn.
Proof.
  apply (@frames_of_different_nodes_commute odrive_can_simple
           (axes_ hw_two_axes) encoder_frame_half_turn
           encoder_frame_other_node).
  discriminate.
Defined.

(** Both frames are decoded, each by its axis. *)
Example two_nodes_both_decoded :
  map pos_estimate_
    (on_can_msg (on_can_msg (axes_ hw_two_axes) encoder_frame_half_turn)
       encoder_frame_other_node)
  = [0.5 * (two * M_PI); 0.5 * (two * M_PI)].
Proof. reflexivity. Qed.

Lemma last_encoder_frame_decides_witness :
  exists axis' : Axis,
    nth_error
      (read ([encoder_frame_other_node; torque_frame_node5]
             ++ [encoder_frame_half_turn]) [axis_gear3]) 0 = Some axis' /\
    pos_estimate_ axis' =
      Pos_Estimate
        (Get_Encoder_Estimates_decode_buf (data encoder_frame_half_turn))
      * (two * M_PI) * read_factor axis_gear3 /\
    vel_estimate_ axis' =
      Vel_Estimate
        (Get_Encoder_Estimates_decode_buf (data encoder_frame_half_turn))
      * (two * M_PI) * read_factor axis_gear3.
Proof.
  apply (@last_encoder_frame_decides odrive_can_simple
           [encoder_frame_other_node; torque_frame_node5]
           encoder_frame_half_turn [axis_gear3] 0%nat axis_gear3);
    reflexivity.
Defined.

Lemma state_values_after_read_witness :
  state_value (read [torque_frame_node5] [axis_gear2])
    {| state_joint := "joint1"; state_interface_name := "effort";
       state_axis := 0; state_ptr := Ptr_torque_target |}
  = Some 0.5.
Proof.
  exact (@state_values_after_read odrive_can_simple
           [torque_frame_node5] [axis_gear2]
           {| state_joint := "joint1"; state_interface_name := "effort";
              state_axis := 0; state_ptr := Ptr_torque_target |}
           (Axis_on_can_msg axis_gear2 torque_frame_node5) eq_refl).
Defined.

(** The torque estimate of the same frame is converted, the target not. *)
Example torque_frame_gear2 :
  map (fun a => (torque_target_ a, torque_estimate_ a))
    (read [torque_frame_node5] [axis_gear2])
  = [(0.5, -1)].
Proof. reflexivity. Qed.


(** The first joint's axis is appended before the second joint, which has
    no node id, ends [on_init]. *)
Example on_init_missing_node_id :
  on_init stod_sample stoi_sample true info_missing_node_id hw_empty
  = OnInitThrows [Axis_new 5 1 false].
Proof. reflexivity. Qed.

Lemma on_init_joint_defaults_witness :
  transmission_ratio_ (Axis_new 7 1 false) = 1 /\
  (reverse_axis_ (Axis_new 7 1 false) = true <->
   find "reverse_axis" [("node_id", "7")]%string = Some "true"%string \/
   find "reverse_axis" [("node_id", "7")]%string = Some "1"%string).
Proof.
  destruct (on_init_joint_defaults stod_sample stoi_sample
              {| name := "elbow"; parameters := [("node_id", "7")]%string |}
              (Axis_new 7 1 false) eq_refl)
    as (Hratio & Hrev & _).
  split; [apply Hratio; reflexivity | exact Hrev].
Defined.

Lemma fresh_interface_commands_nothing_witness :
  snd (on_activate
         {| active_ := false;
            axes_ := [Axis_new 5 2 true; Axis_new 7 1 false];
            joints_ := ["shoulder"; "elbow"]%string |})
  = [ {| sent_node_id := 5;
         sent_msg :=
           Set_Axis_State
             {| Axis_Requested_State := AXIS_STATE_IDLE |} |};
      {| sent_node_id := 7;
         sent_msg :=
           Set_Axis_State
             {| Axis_Requested_State := AXIS_STATE_IDLE |} |} ] /\
  write [Axis_new 5 2 true; Axis_new 7 1 false] = [].
Proof.
  destruct (fresh_interface_commands_nothing stod_sample stoi_sample
              info_two_joints hw_empty
              {| active_ := false;
                 axes_ := [Axis_new 5 2 true; Axis_new 7 1 false];
                 joints_ := ["shoulder"; "elbow"]%string |}
              true eq_refl eq_refl) as (Hsent & _ & Hwrite).
  split; [exact Hsent | exact Hwrite].
Defined.

(** What the code does on a non-reversed axis from a reading to the first
    setpoint sent: the drive reports 0.5 turns, the read cycle makes that
    -3 pi rad, the mode switch takes it as the position setpoint, and the
    write cycle sends -0.5 turns. *)
Example reading_seed_and_first_setpoint :
  let axes1 := read [encoder_frame_half_turn] [axis_gear3] in
  let hw1 := {| active_ := true; axes_ := axes1;
                joints_ := ["joint1"%string] |} in
  let hw2 :=
    fst (perform_command_mode_switch ["joint1/position"%string] [] hw1) in
  map pos_setpoint_ (axes_ hw2) = [- (3 * M_PI)] /\
  write (axes_ hw2) =
    [ {| sent_node_id := 5;
         sent_msg :=
           Set_Input_Pos
             {| Input_Pos := -0.5; Vel_FF := 0; Torque_FF := 0 |} |} ].
Proof. split; reflexivity. Qed.

End MoreSamples.
